(** * DateInput: calendar navigation and selection state

    A shallow embedding of
    [packages/components/inputs/date-input/src/date-input.tsx].

    The component keeps three pieces of React state ([calendarDate],
    [suggestedItems], [highlightedIndex]) and reacts to the callbacks that
    Downshift and the calendar header invoke.  Every handler of the component
    is a function from the state before the event to the state after it,
    together with the effects the handler has on the outside: the change
    events delivered to [props.onChange], the [preventDownshiftDefault] mark
    on the keyboard event, the request to clear the selection and the focus
    request on the input. *)

From Stdlib Require Import ZArith List String Ascii Bool Lia.
Import ListNotations.
Local Open Scope Z_scope.

(** ** Calendar dates

    A date string [YYYY-MM-DD] is kept as its three numbers. *)

Record CalendarDate : Type := mkDate {
  year : Z;
  month : Z;
  day : Z
}.

Definition CalendarDate_eqb (a b : CalendarDate) : bool :=
  (year a =? year b) && (month a =? month b) && (day a =? day b).

(** A string that is either empty or a date formatted as [YYYY-MM-DD]: the
  type of [props.value], of the result of [parseInputToDate] and of the
  [value] carried by a change event. *)
Inductive DateString : Type :=
| Empty
| Iso (d : CalendarDate).

Module CalendarUtils.

(** The calendar helpers are imported by the component from
    [@commercetools-uikit/calendar-utils]; they follow section 4.1 of the
    specification. *)

(** The Gregorian leap-year rule and the length of month [m] of year
    [y]. *)
Definition isLeapYear (y : Z) : bool :=
  (y mod 4 =? 0) && (negb (y mod 100 =? 0) || (y mod 400 =? 0)).

Definition daysIn (y m : Z) : Z :=
  if m =? 2 then (if isLeapYear y then 29 else 28)
  else if (m =? 4) || (m =? 6) || (m =? 9) || (m =? 11) then 30
  else 31.

(** Modelled from the spec: [getDaysInMonth] (calendar-utils), "integer
    count of days in that date's month, correct across leap years". *)
Definition getDaysInMonth (d : CalendarDate) : Z :=
  daysIn (year d) (month d).

(** Modelled from the spec: [getDateInMonth] (calendar-utils), the day of
    the month of a date, from 1. *)
Definition getDateInMonth (d : CalendarDate) : Z := day d.

(** A month counted from year 0: the displayed month of a date. *)
Definition monthIndex (d : CalendarDate) : Z :=
  year d * 12 + (month d - 1).

(** Modelled from the spec: [changeMonth] (calendar-utils), "returns the
    date shifted by n months (negative allowed), clamping the day-of-month
    to the target month's last valid day if it would overflow". *)
Definition changeMonth (d : CalendarDate) (amount : Z) : CalendarDate :=
  let mi := monthIndex d + amount in
  let y := mi / 12 in
  let m := mi mod 12 + 1 in
  mkDate y m (Z.min (day d) (daysIn y m)).

(** Modelled from the spec: [getNextDay] (calendar-utils), the day after,
    "rolling over month and year boundaries". *)
Definition nextDay (d : CalendarDate) : CalendarDate :=
  if day d <? daysIn (year d) (month d)
  then mkDate (year d) (month d) (day d + 1)
  else if month d <? 12
       then mkDate (year d) (month d + 1) 1
       else mkDate (year d + 1) 1 1.

(** Modelled from the spec: [getPreviousDay] (calendar-utils), the day
    before, "rolling over month and year boundaries". *)
Definition previousDay (d : CalendarDate) : CalendarDate :=
  if 1 <? day d
  then mkDate (year d) (month d) (day d - 1)
  else if 1 <? month d
       then mkDate (year d) (month d - 1) (daysIn (year d) (month d - 1))
       else mkDate (year d - 1) 12 31.

(** Chronological order on dates. *)
Definition dateLeb (a b : CalendarDate) : bool :=
  (year a <? year b)
  || ((year a =? year b)
      && ((month a <? month b)
          || ((month a =? month b) && (day a <=? day b)))).

(** Modelled from the spec: [getIsDateInRange] (calendar-utils), "true if
    min absent or date >= min, and max absent or date <= max.  Absent date
    is never in range".  A bound that is absent or the empty string is
    [None]. *)
Definition getIsDateInRange (item : DateString)
    (min max : option CalendarDate) : bool :=
  match item with
  | Empty => false
  | Iso d =>
      (match min with None => true | Some lo => dateLeb lo d end)
      && (match max with None => true | Some hi => dateLeb d hi end)
  end.

(** Modelled from the spec: [createCalendarItems] (calendar-utils), "one
    Day cell per day 1..daysInMonth, in ascending order". *)
Definition createCalendarItems (d : CalendarDate) : list CalendarDate :=
  map (fun i => mkDate (year d) (month d) (Z.of_nat i))
      (seq 1 (Z.to_nat (getDaysInMonth d))).

(** Modelled from the spec: [isSameDay] (calendar-utils), "structural
    equality" of two days; an empty string is no day. *)
Definition isSameDay (a : CalendarDate) (b : DateString) : bool :=
  match b with
  | Empty => false
  | Iso d => CalendarDate_eqb a d
  end.

(** A real calendar day: the invariant of [CalendarDate] in the data
    model. *)
Definition isValidDate (d : CalendarDate) : bool :=
  (1 <=? month d) && (month d <=? 12)
  && (1 <=? day d) && (day d <=? daysIn (year d) (month d)).

End CalendarUtils.
Import CalendarUtils.

(** ** Raw text of the input

    A text is kept as the UTF-8 bytes of its characters, so that it is
    empty exactly when the JavaScript string has length 0. *)

Definition byteOf (c : ascii) : Z := Z.of_nat (nat_of_ascii c).

(** The characters of a text.  A byte from 194 leads a character of two
    bytes, one from 224 a character of three and one from 240 a character
    of four; any other byte stands alone. *)
Fixpoint characters (s : string) : list string :=
  match s with
  | EmptyString => []
  | String c1 r1 =>
      if byteOf c1 <? 194 then String c1 EmptyString :: characters r1
      else
        match r1 with
        | EmptyString => [String c1 EmptyString]
        | String c2 r2 =>
            if byteOf c1 <? 224
            then String c1 (String c2 EmptyString) :: characters r2
            else
              match r2 with
              | EmptyString => [String c1 (String c2 EmptyString)]
              | String c3 r3 =>
                  if byteOf c1 <? 240
                  then String c1 (String c2 (String c3 EmptyString))
                       :: characters r3
                  else
                    match r3 with
                    | EmptyString =>
                        [String c1 (String c2 (String c3 EmptyString))]
                    | String c4 r4 =>
                        String c1 (String c2 (String c3
                          (String c4 EmptyString)))
                        :: characters r4
                    end
              end
        end
  end.

(** The characters [String.prototype.trim] removes, the white space and
    line terminators of ECMAScript: U+0009 to U+000D and U+0020 (one
    byte); U+00A0 (two bytes); U+1680, U+2000 to U+200A, U+2028, U+2029,
    U+202F, U+205F, U+3000 and U+FEFF (three bytes).  A byte 160 that
    stands alone, which no UTF-8 text holds, is read as U+00A0 too, its
    code unit. *)
Definition isWhitespace (ch : string) : bool :=
  match ch with
  | String c1 EmptyString =>
      let a := byteOf c1 in
      (a =? 32) || ((9 <=? a) && (a <=? 13)) || (a =? 160)
  | String c1 (String c2 EmptyString) =>
      (byteOf c1 =? 194) && (byteOf c2 =? 160)
  | String c1 (String c2 (String c3 EmptyString)) =>
      let a := byteOf c1 in
      let b := byteOf c2 in
      let c := byteOf c3 in
      ((a =? 225) && (b =? 154) && (c =? 128))
      || ((a =? 226) && (b =? 128)
          && (((128 <=? c) && (c <=? 138))
              || (c =? 168) || (c =? 169) || (c =? 175)))
      || ((a =? 226) && (b =? 129) && (c =? 159))
      || ((a =? 227) && (b =? 128) && (c =? 128))
      || ((a =? 239) && (b =? 187) && (c =? 191))
  | _ => false
  end.

Fixpoint trimStart (l : list string) : list string :=
  match l with
  | [] => []
  | ch :: rest => if isWhitespace ch then trimStart rest else l
  end.

Fixpoint trimEnd (l : list string) : list string :=
  match l with
  | [] => []
  | ch :: rest =>
      match trimEnd rest with
      | [] => if isWhitespace ch then [] else [ch]
      | kept => ch :: kept
      end
  end.

Definition trim (s : string) : string :=
  String.concat EmptyString (trimEnd (trimStart (characters s))).

(** U+00A0 (no-break space) and U+3000 (ideographic space) as texts. *)
Definition noBreakSpace : string :=
  String (ascii_of_nat 194) (String (ascii_of_nat 160) EmptyString).

Definition ideographicSpace : string :=
  String (ascii_of_nat 227)
    (String (ascii_of_nat 128) (String (ascii_of_nat 128) EmptyString)).

(** ** A parser of the canonical format

    [parseInputToDate] is locale dependent and a parameter of the component
    below.  [parseIso] is one instance of it, used to run the component on
    concrete inputs: it accepts exactly [YYYY-MM-DD] when that is a real
    calendar day, and answers the empty string otherwise. *)

Definition digit (c : ascii) : option Z :=
  let n := Z.of_nat (nat_of_ascii c) in
  if (48 <=? n) && (n <=? 57) then Some (n - 48) else None.

Definition isDash (c : ascii) : bool := (Z.of_nat (nat_of_ascii c) =? 45).

Definition digits2 (a b : ascii) : option Z :=
  match digit a, digit b with
  | Some x, Some y => Some (10 * x + y)
  | _, _ => None
  end.

Definition parseIso (text : string) (locale : string) : DateString :=
  match text with
  | String y1 (String y2 (String y3 (String y4 (String s1
      (String m1 (String m2 (String s2 (String d1 (String d2
        EmptyString))))))))) =>
      match digits2 y1 y2, digits2 y3 y4, digits2 m1 m2, digits2 d1 d2 with
      | Some yh, Some yl, Some m, Some d =>
          let date := mkDate (100 * yh + yl) m d in
          if isDash s1 && isDash s2 && isValidDate date
          then Iso date else Empty
      | _, _, _, _ => Empty
      end
  | _ => Empty
  end.

(** ** The component *)

Module DateInput.

(** [highlightedIndex] is [number | null | undefined]. *)
Inductive Highlight : Type :=
| HNull
| HUndefined
| HIdx (i : Z).

(** [Number(highlightedIndex)]: [null] is 0 and [undefined] is NaN
    ([None]). *)
Definition Number (h : Highlight) : option Z :=
  match h with
  | HNull => Some 0
  | HUndefined => None
  | HIdx i => Some i
  end.

(** [a >= b] and [a <= b] on numbers; a comparison with NaN is false. *)
Definition numGe (a : option Z) (b : Z) : bool :=
  match a with Some x => b <=? x | None => false end.

Definition numLe (a : option Z) (b : Z) : bool :=
  match a with Some x => x <=? b | None => false end.

Definition numSucc (a : option Z) : option Z :=
  match a with Some x => Some (x + 1) | None => None end.

(** [items[i]]: [undefined] ([None]) outside the array and at NaN. *)
Definition itemAt {A : Type} (items : list A) (i : option Z) : option A :=
  match i with
  | None => None
  | Some i => if i <? 0 then None else nth_error items (Z.to_nat i)
  end.

Inductive Appearance : Type := AppearanceDefault | AppearanceFilter.

(** The props the logic reads.  [onChange] records whether
    [typeof props.onChange === 'function']; the events the callback receives
    are the [emitted] list of a handler's effects.  [minValue] and [maxValue]
    are [None] when absent or empty. *)
Record TDateInput : Type := {
  value : DateString;
  onChange : bool;
  id : option string;
  name : option string;
  isDisabled : bool;
  isReadOnly : bool;
  minValue : option CalendarDate;
  maxValue : option CalendarDate;
  appearance : option Appearance
}.

(** The event handed to [props.onChange]. *)
Record TCustomEvent : Type := {
  target_id : option string;
  target_name : option string;
  target_value : DateString
}.

(** The three [useState] cells. *)
Record State : Type := {
  calendarDate : CalendarDate;
  suggestedItems : list CalendarDate;
  highlightedIndex : Highlight
}.

(** What Downshift hands to the render function besides the controlled
    props: whether the menu is open and the raw text of the input
    ([string | null]). *)
Record Downshift : Type := {
  isOpen : bool;
  inputValue : option string
}.

(** What a handler does besides setting state. *)
Record Effects : Type := {
  emitted : list TCustomEvent;
  preventedDownshiftDefault : bool;
  clearSelectionCalled : bool;
  inputFocused : bool
}.

Definition noEffects : Effects :=
  {| emitted := [];
     preventedDownshiftDefault := false;
     clearSelectionCalled := false;
     inputFocused := false |}.

(** [Downshift.stateChangeTypes]. *)
Inductive StateChangeType : Type :=
| changeInput
| keyDownEnter
| keyDownArrowDown
| keyDownArrowUp
| keyDownEscape
| clickItem
| blurInput
| itemMouseEnter
| mouseUp
| unknown.

Definition isChangeInput (t : StateChangeType) : bool :=
  match t with changeInput => true | _ => false end.

(** The [changes] object of [onStateChange]: a field is [None] when
    [changes.hasOwnProperty] is false for it. *)
Record Changes : Type := {
  changes_type : StateChangeType;
  changes_inputValue : option string;
  changes_highlightedIndex : option Highlight
}.

(** The entry points of the component. *)
Inductive Event : Type :=
| StateChange (changes : Changes)
| KeyDown (key : string)
| InputBlur (targetValue : option string)
| SelectionChange (date : option DateString)
| PrevMonthClick
| TodayClick
| NextMonthClick
| PrevYearClick
| NextYearClick.

(** One cell of the rendered grid. *)
Record CalendarDay : Type := {
  item : CalendarDate;
  disabled : bool;
  isToday : bool;
  isHighlighted : bool;
  isSelected : bool
}.

Record View : Type := {
  selectedItem : option DateString;
  menuShown : bool;
  days : list CalendarDay
}.

Definition warningMessage : string :=
  "DateInput: `onChange` is required when input is not read only.".

Definition DateString_eqb (a b : DateString) : bool :=
  match a, b with
  | Empty, Empty => true
  | Iso x, Iso y => CalendarDate_eqb x y
  | _, _ => false
  end.

(** [a === b] on [string | null]. *)
Definition sameSelection (a b : option DateString) : bool :=
  match a, b with
  | None, None => true
  | Some x, Some y => DateString_eqb x y
  | _, _ => false
  end.

(** [inputValue?.trim() === '']. *)
Definition isBlankInput (text : option string) : bool :=
  match text with
  | Some t => (trim t =? "")%string
  | None => false
  end.

(** [value || ''] on [string | null]. *)
Definition orEmptyString (v : option DateString) : DateString :=
  match v with
  | Some (Iso d) => Iso d
  | Some Empty => Empty
  | None => Empty
  end.

(** [index === downshiftHighlightedIndex]. *)
Definition isIndex (index : Z) (h : Highlight) : bool :=
  match h with
  | HIdx i => index =? i
  | _ => false
  end.

Definition preventDownshiftDefault (fx : Effects) : Effects :=
  {| emitted := emitted fx;
     preventedDownshiftDefault := true;
     clearSelectionCalled := clearSelectionCalled fx;
     inputFocused := inputFocused fx |}.

Definition callClearSelection (fx : Effects) : Effects :=
  {| emitted := emitted fx;
     preventedDownshiftDefault := preventedDownshiftDefault fx;
     clearSelectionCalled := true;
     inputFocused := inputFocused fx |}.

Definition focusInput (fx : Effects) : Effects :=
  {| emitted := emitted fx;
     preventedDownshiftDefault := preventedDownshiftDefault fx;
     clearSelectionCalled := clearSelectionCalled fx;
     inputFocused := true |}.

Definition emitting (events : list TCustomEvent) : Effects :=
  {| emitted := events;
     preventedDownshiftDefault := false;
     clearSelectionCalled := false;
     inputFocused := false |}.

Definition setCalendarDate (s : State) (d : CalendarDate) : State :=
  {| calendarDate := d;
     suggestedItems := suggestedItems s;
     highlightedIndex := highlightedIndex s |}.

Definition setSuggestedItems (s : State) (l : list CalendarDate) : State :=
  {| calendarDate := calendarDate s;
     suggestedItems := l;
     highlightedIndex := highlightedIndex s |}.

Definition setHighlightedIndex (s : State) (h : Highlight) : State :=
  {| calendarDate := calendarDate s;
     suggestedItems := suggestedItems s;
     highlightedIndex := h |}.

(** The props with [onChange] present or absent, all else equal. *)
Definition withOnChange (present : bool) (props : TDateInput) : TDateInput :=
  {| value := value props;
     onChange := present;
     id := id props;
     name := name props;
     isDisabled := isDisabled props;
     isReadOnly := isReadOnly props;
     minValue := minValue props;
     maxValue := maxValue props;
     appearance := appearance props |}.

(** The value a controlled consumer holds after the change events it
    received: the last one it was handed, or the one it had. *)
Definition committedValue (before : DateString) (events : list TCustomEvent)
    : DateString :=
  fold_left (fun _ e => target_value e) events before.

Definition firstDayOfMonth (d : CalendarDate) : CalendarDate :=
  mkDate (year d) (month d) 1.

Definition lastDayOfMonth (d : CalendarDate) : CalendarDate :=
  mkDate (year d) (month d) (getDaysInMonth d).

(** [DateInput.isEmpty]: [value === ''] on a value that may be
    [undefined]. *)
Definition isEmpty (v : option DateString) : bool :=
  match v with
  | Some Empty => true
  | _ => false
  end.

(** [a !== b] negated, on [number | null | undefined]. *)
Definition sameHighlight (a b : Highlight) : bool :=
  match a, b with
  | HNull, HNull => true
  | HUndefined, HUndefined => true
  | HIdx i, HIdx j => i =? j
  | _, _ => false
  end.

(** *** Sample inputs *)

Definition sampleProps (v : DateString) (lo hi : option CalendarDate)
    : TDateInput :=
  {| value := v;
     onChange := true;
     id := Some "date"%string;
     name := Some "date"%string;
     isDisabled := false;
     isReadOnly := false;
     minValue := lo;
     maxValue := hi;
     appearance := None |}.

Definition sampleReadOnly : TDateInput :=
  {| value := Iso (mkDate 2024 5 1);
     onChange := true;
     id := None;
     name := None;
     isDisabled := false;
     isReadOnly := true;
     minValue := None;
     maxValue := None;
     appearance := None |}.

Definition sampleState (d : CalendarDate) (l : list CalendarDate)
    (h : Highlight) : State :=
  {| calendarDate := d; suggestedItems := l; highlightedIndex := h |}.

Definition sampleToday : CalendarDate := mkDate 2024 6 10.

Definition openMenu (text : string) : Downshift :=
  {| isOpen := true; inputValue := Some text |}.

Definition propsOpen : TDateInput := sampleProps Empty None None.

Definition propsMay : TDateInput :=
  sampleProps (Iso (mkDate 2024 5 1)) None None.

Definition propsUntilMid : TDateInput :=
  sampleProps Empty None (Some (mkDate 2024 3 15)).

Definition midMarch : State := sampleState (mkDate 2024 3 15) [] (HIdx 14).

Definition endJanuary : State := sampleState (mkDate 2024 1 15) [] (HIdx 30).

Section Component.

(** [intl.locale]. *)
Variable locale : string.

(** [getToday()] (calendar-utils): the current day. *)
Variable getToday : CalendarDate.

(** [parseInputToDate] (calendar-utils): the date a text denotes in a
    locale, or the empty string. *)
Variable parseInputToDate : string -> string -> DateString.

(** [moment(item)] for an item that may be [undefined]: moment reads
    [undefined] as the current instant. *)
Definition momentOf (item : option CalendarDate) : CalendarDate :=
  match item with
  | Some d => d
  | None => getToday
  end.

Definition getNextDay (item : option CalendarDate) : CalendarDate :=
  nextDay (momentOf item).

Definition getPreviousDay (item : option CalendarDate) : CalendarDate :=
  previousDay (momentOf item).

(** [useState] initial values. *)
Definition initialState (props : TDateInput) : State :=
  {| calendarDate :=
       match value props with Iso d => d | Empty => getToday end;
     suggestedItems := [];
     highlightedIndex :=
       match value props with
       | Empty => HNull
       | Iso d => HIdx (getDateInMonth d - 1)
       end |}.

(** Modelled from the spec: [warning] (utils), "logged, not thrown": the
    messages logged while rendering. *)
Definition warnings (props : TDateInput) : list string :=
  if negb (isReadOnly props)
  then (if onChange props then [] else [warningMessage])
  else [].

(** [emit]: the events handed to [props.onChange], none when the prop is
    absent ([onChange?.(...)]). *)
Definition emit (props : TDateInput) (v : option DateString)
    : list TCustomEvent :=
  if onChange props
  then [ {| target_id := id props;
            target_name := name props;
            target_value := orEmptyString v |} ]
  else [].

(** [handleChange]: Downshift's [onChange] prop.  It also selects the text
    of the input ([setSelectionRange]), which no state depends on. *)
Definition handleChange (props : TDateInput) (date : option DateString)
    : list TCustomEvent :=
  emit props date.

(** [showToday]: the "today" button of the header. *)
Definition showToday (s : State) : State * Effects :=
  let today := getToday in
  let s1 := setCalendarDate s today in
  let s2 :=
    setHighlightedIndex s1
      (HIdx (Z.of_nat (List.length (suggestedItems s))
             + getDateInMonth today - 1)) in
  (s2, focusInput noEffects).

(** [jumpMonth]: [dayToHighlight] defaults to 0 at the call sites that omit
    it. *)
Definition jumpMonth (s : State) (amount : Z) (dayToHighlight : Z) : State :=
  let nextDate := changeMonth (calendarDate s) amount in
  setHighlightedIndex (setCalendarDate s nextDate) (HIdx dayToHighlight).

(** [onInputBlur]: [targetValue] is [event.target.value], which may be
    absent. *)
Definition onInputBlur (props : TDateInput) (targetValue : option string)
    : list TCustomEvent :=
  let inputValue :=
    match targetValue with Some t => t | None => ""%string end in
  let date := parseInputToDate inputValue locale in
  let inRange := getIsDateInRange date (minValue props) (maxValue props) in
  (if (String.length inputValue =? 0)%nat then emit props (Some Empty) else [])
  ++ match date with
     | Empty => []
     | Iso _ => if negb inRange then [] else emit props (Some date)
     end.

(** [onStateChange]: the three [set...] calls of a branch are batched into
    one state. *)
Definition onStateChange (props : TDateInput) (s : State) (changes : Changes)
    : State :=
  match changes_inputValue changes with
  | Some text =>
      if isChangeInput (changes_type changes) then
        match parseInputToDate text locale with
        | Empty => setHighlightedIndex (setSuggestedItems s []) HNull
        | Iso d =>
            let s1 := setSuggestedItems s [d] in
            let s2 :=
              if getIsDateInRange (Iso d) (minValue props) (maxValue props)
              then setHighlightedIndex s1 (HIdx (getDateInMonth d - 1))
              else s1 in
            setCalendarDate s2 d
        end
      else setHighlightedIndex (setSuggestedItems s []) HNull
  | None =>
      match changes_highlightedIndex changes with
      | Some h => setHighlightedIndex s h
      | None => s
      end
  end.

(** [onKeyDown] of the input: [key] is [event.key].  A [return] ends the
    handler with the effects so far. *)
Definition onKeyDown (props : TDateInput) (ds : Downshift) (s : State)
    (key : string) : State * Effects :=
  if isReadOnly props then (s, preventDownshiftDefault noEffects)
  else
    let fx :=
      if (key =? "Enter")%string && isBlankInput (inputValue ds)
      then callClearSelection noEffects else noEffects in
    let calendarItems := createCalendarItems (calendarDate s) in
    let index := Number (highlightedIndex s) in
    if (key =? "ArrowDown")%string then
      let nextDayToHighlight := getNextDay (itemAt calendarItems index) in
      if negb (getIsDateInRange (Iso nextDayToHighlight)
                 (minValue props) (maxValue props))
      then (s, preventDownshiftDefault fx)
      else if numGe (numSucc index) (Z.of_nat (List.length calendarItems))
      then (jumpMonth s 1 0, preventDownshiftDefault fx)
      else (s, fx)
    else if (key =? "ArrowUp")%string then
      let prevDay := getPreviousDay (itemAt calendarItems index) in
      if negb (getIsDateInRange (Iso prevDay)
                 (minValue props) (maxValue props))
      then (s, preventDownshiftDefault fx)
      else if numLe index 0
      then
        let numberOfDaysOfPrevMonth := getDaysInMonth prevDay in
        (jumpMonth s (-1) (numberOfDaysOfPrevMonth - 1),
         preventDownshiftDefault fx)
      else (s, fx)
    else (s, fx).

(** The grid the component renders and the props it hands to Downshift. *)
Definition menuIsShown (props : TDateInput) (ds : Downshift) : bool :=
  let filter :=
    match appearance props with
    | Some AppearanceFilter => true
    | _ => false
    end in
  (isOpen ds && negb (isDisabled props) && negb (isReadOnly props))
  || (filter && negb (isDisabled props) && negb (isReadOnly props)).

Definition renderDay (props : TDateInput) (s : State)
    (cell : nat * CalendarDate) : CalendarDay :=
  let '(index, it) := cell in
  {| item := it;
     disabled :=
       negb (getIsDateInRange (Iso it) (minValue props) (maxValue props));
     isToday := isSameDay getToday (Iso it);
     isHighlighted := isIndex (Z.of_nat index) (highlightedIndex s);
     isSelected := isSameDay it (value props) |}.

Definition render (props : TDateInput) (ds : Downshift) (s : State) : View :=
  let calendarItems := createCalendarItems (calendarDate s) in
  {| selectedItem :=
       match value props with Empty => None | v => Some v end;
     menuShown := menuIsShown props ds;
     days :=
       if menuIsShown props ds
       then map (renderDay props s)
                (combine (seq 0 (List.length calendarItems)) calendarItems)
       else [] |}.

(** One event of the component: the state it leaves and its effects. *)
Definition step (props : TDateInput) (ds : Downshift) (s : State)
    (ev : Event) : State * Effects :=
  match ev with
  | StateChange changes => (onStateChange props s changes, noEffects)
  | KeyDown key => onKeyDown props ds s key
  | InputBlur targetValue => (s, emitting (onInputBlur props targetValue))
  | SelectionChange date => (s, emitting (handleChange props date))
  | PrevMonthClick => (jumpMonth s (-1) 0, noEffects)
  | TodayClick => showToday s
  | NextMonthClick => (jumpMonth s 1 0, noEffects)
  | PrevYearClick => (jumpMonth s (-12) 0, noEffects)
  | NextYearClick => (jumpMonth s 12 0, noEffects)
  end.

(** *** What Downshift does with the component's props

    Downshift is a dependency of the component.  Two of its behaviours
    decide what a key press commits.  [onChange] is "called when the
    selected item changes": a selection equal to the controlled
    [selectedItem] is not reported.  Enter, unless the handler marked the
    event, selects the highlighted item when the menu is open and the item
    is not disabled. *)

Definition reportSelection (props : TDateInput) (ds : Downshift) (s : State)
    (selection : option DateString) : list TCustomEvent :=
  if sameSelection selection (selectedItem (render props ds s))
  then []
  else handleChange props selection.

Definition clearSelection (props : TDateInput) (ds : Downshift) (s : State)
    : list TCustomEvent :=
  reportSelection props ds s None.

Definition enterDefault (props : TDateInput) (ds : Downshift) (s : State)
    : list TCustomEvent :=
  if isOpen ds then
    match highlightedIndex s with
    | HIdx i =>
        match itemAt (days (render props ds s)) (Some i) with
        | Some cell =>
            if disabled cell then []
            else reportSelection props ds s (Some (Iso (item cell)))
        | None => []
        end
    | _ => []
    end
  else [].

(** The change events a key press delivers to [props.onChange]: those of
    the [clearSelection] the handler called, then those of Downshift's own
    handling of Enter. *)
Definition keyDownEmits (props : TDateInput) (ds : Downshift) (s : State)
    (key : string) : list TCustomEvent :=
  let fx := snd (onKeyDown props ds s key) in
  (if clearSelectionCalled fx then clearSelection props ds s else [])
  ++ (if (key =? "Enter")%string && negb (preventedDownshiftDefault fx)
      then enterDefault props ds s else []).

(** Typing [text] into the input: Downshift opens the menu, takes the text
    as its input value and reports the change with [changeInput]; [h] is
    the [highlightedIndex] field of the report, when it has one. *)
Definition typeChanges (text : string) (h : option Highlight) : Changes :=
  {| changes_type := changeInput;
     changes_inputValue := Some text;
     changes_highlightedIndex := h |}.

(** [setDownshiftHighlightedIndex]: the index is a prop the component
    controls, so Downshift only reports the new index through
    [onStateChange], and reports nothing when the index is the one it
    has. *)
Definition setDownshiftHighlightedIndex (props : TDateInput) (s : State)
    (h : Highlight) : State :=
  if sameHighlight h (highlightedIndex s) then s
  else
    onStateChange props s
      {| changes_type := unknown;
         changes_inputValue := None;
         changes_highlightedIndex := Some h |}.

(** [onMouseEnter] of the input and [onMouseOut] of a day cell. *)
Definition onMouseEnter (props : TDateInput) (ds : Downshift) (s : State)
    : State :=
  if isOpen ds then setDownshiftHighlightedIndex props s HNull else s.

Definition onMouseOut (props : TDateInput) (s : State) : State :=
  setDownshiftHighlightedIndex props s HNull.

(** [hasSelection={Boolean(selectedItem)}]. *)
Definition hasSelection (props : TDateInput) (ds : Downshift) (s : State)
    : bool :=
  match selectedItem (render props ds s) with
  | Some (Iso _) => true
  | _ => false
  end.

(** A sequence of events, each with what Downshift holds when it
    arrives. *)
Fixpoint run (props : TDateInput) (s : State)
    (events : list (Downshift * Event)) : State :=
  match events with
  | [] => s
  | (ds, ev) :: rest => run props (fst (step props ds s ev)) rest
  end.

(** ** Properties *)

(** Blank text denotes no date (section 4.2: the parser "returns empty for
    blank input"). *)
Hypothesis parse_blank :
  forall text, trim text = ""%string -> parseInputToDate text locale = Empty.

Arguments getIsDateInRange : simpl never.

Lemma CalendarDate_eqb_eq (a b : CalendarDate) :
  CalendarDate_eqb a b = true <-> a = b.
Proof.
  destruct a as [ya ma da], b as [yb mb db]; unfold CalendarDate_eqb; simpl.
  rewrite !andb_true_iff, !Z.eqb_eq. split.
  - intros [[-> ->] ->]. reflexivity.
  - intros H. injection H as -> -> ->. auto.
Qed.

Lemma CalendarDate_eqb_refl (a : CalendarDate) : CalendarDate_eqb a a = true.
Proof. apply CalendarDate_eqb_eq. reflexivity. Qed.


Example changeMonth_leap :
  changeMonth (mkDate 2024 1 31) 1 = mkDate 2024 2 29.
Proof. reflexivity. Qed.

Example changeMonth_common :
  changeMonth (mkDate 2023 1 31) 1 = mkDate 2023 2 28.
Proof. reflexivity. Qed.

Example changeMonth_back_over_year :
  changeMonth (mkDate 2024 1 15) (-1) = mkDate 2023 12 15.
Proof. reflexivity. Qed.

Example nextDay_year_end : nextDay (mkDate 2023 12 31) = mkDate 2024 1 1.
Proof. reflexivity. Qed.

Example previousDay_march : previousDay (mkDate 2024 3 1) = mkDate 2024 2 29.
Proof. reflexivity. Qed.

(** *** Calendar arithmetic *)

Lemma daysIn_bounds (y m : Z) : 28 <= daysIn y m <= 31.
Proof.
  unfold daysIn.
  destruct (m =? 2); [destruct (isLeapYear y); lia|].
  destruct ((m =? 4) || (m =? 6) || (m =? 9) || (m =? 11)); lia.
Qed.

Lemma monthIndex_changeMonth (d : CalendarDate) (amount : Z) :
  monthIndex (changeMonth d amount) = monthIndex d + amount.
Proof.
  unfold changeMonth, monthIndex at 1; simpl.
  pose proof (Z.div_mod (monthIndex d + amount) 12). lia.
Qed.

Lemma length_createCalendarItems (d : CalendarDate) :
  Z.of_nat (List.length (createCalendarItems d)) = getDaysInMonth d.
Proof.
  unfold createCalendarItems. rewrite length_map, length_seq.
  pose proof (daysIn_bounds (year d) (month d)).
  unfold getDaysInMonth. lia.
Qed.

Lemma itemAt_createCalendarItems (d : CalendarDate) (i : Z) :
  0 <= i < getDaysInMonth d ->
  itemAt (createCalendarItems d) (Some i)
  = Some (mkDate (year d) (month d) (i + 1)).
Proof.
  intros Hi. unfold itemAt, createCalendarItems.
  destruct (i <? 0) eqn:Hneg; [lia|].
  rewrite nth_error_map.
  rewrite nth_error_nth' with (d := 0%nat) by (rewrite length_seq; lia).
  rewrite seq_nth by lia. simpl. do 2 f_equal. lia.
Qed.

Lemma itemAt_first (d : CalendarDate) :
  itemAt (createCalendarItems d) (Some 0) = Some (firstDayOfMonth d).
Proof.
  pose proof (daysIn_bounds (year d) (month d)).
  rewrite itemAt_createCalendarItems by (unfold getDaysInMonth; lia).
  reflexivity.
Qed.

Lemma itemAt_last (d : CalendarDate) :
  itemAt (createCalendarItems d) (Some (getDaysInMonth d - 1))
  = Some (lastDayOfMonth d).
Proof.
  pose proof (daysIn_bounds (year d) (month d)).
  rewrite itemAt_createCalendarItems by (unfold getDaysInMonth; lia).
  unfold lastDayOfMonth. do 2 f_equal. lia.
Qed.

(** In a real month, the day before the first day lies in the month that
    [changeMonth] reaches with [-1]. *)
Lemma previousDay_first_month (d : CalendarDate) :
  isValidDate d = true ->
  year (previousDay (firstDayOfMonth d)) = year (changeMonth d (-1))
  /\ month (previousDay (firstDayOfMonth d)) = month (changeMonth d (-1)).
Proof.
  unfold isValidDate. rewrite !andb_true_iff, !Z.leb_le.
  intros [[[Hm1 Hm12] _] _].
  unfold previousDay, firstDayOfMonth, changeMonth, monthIndex; simpl.
  destruct (1 <? month d) eqn:Hlt; simpl.
  - apply Z.ltb_lt in Hlt.
    assert (H : year d * 12 + (month d - 1) + -1 = (month d - 2) + year d * 12)
      by lia.
    rewrite H, Z.div_add, Z.mod_add by lia.
    rewrite Z.div_small, Z.mod_small by lia. lia.
  - apply Z.ltb_ge in Hlt.
    assert (H : year d * 12 + (month d - 1) + -1 = 11 + (year d - 1) * 12)
      by lia.
    rewrite H, Z.div_add, Z.mod_add by lia.
    change (11 / 12) with 0. change (11 mod 12) with 11. lia.
Qed.

Lemma getDaysInMonth_previous (d : CalendarDate) :
  isValidDate d = true ->
  getDaysInMonth (previousDay (firstDayOfMonth d))
  = getDaysInMonth (changeMonth d (-1)).
Proof.
  intros Hv. destruct (previousDay_first_month d Hv) as [Hy Hm].
  unfold getDaysInMonth. rewrite Hy, Hm. reflexivity.
Qed.

(** *** Keyboard navigation across the edge of a month *)

Lemma key_ArrowDown_not_Enter : ("ArrowDown" =? "Enter")%string = false.
Proof. reflexivity. Qed.

Lemma key_ArrowUp_not_Enter : ("ArrowUp" =? "Enter")%string = false.
Proof. reflexivity. Qed.

Lemma key_ArrowUp_not_ArrowDown : ("ArrowUp" =? "ArrowDown")%string = false.
Proof. reflexivity. Qed.

(** The handler on ArrowDown, when it is not read-only. *)
Lemma onKeyDown_ArrowDown (props : TDateInput) (ds : Downshift) (s : State) :
  isReadOnly props = false ->
  onKeyDown props ds s "ArrowDown"
  = let calendarItems := createCalendarItems (calendarDate s) in
    let index := Number (highlightedIndex s) in
    if negb (getIsDateInRange (Iso (getNextDay (itemAt calendarItems index)))
               (minValue props) (maxValue props))
    then (s, preventDownshiftDefault noEffects)
    else if numGe (numSucc index) (Z.of_nat (List.length calendarItems))
    then (jumpMonth s 1 0, preventDownshiftDefault noEffects)
    else (s, noEffects).
Proof.
  intros Hro. unfold onKeyDown. rewrite Hro.
  rewrite key_ArrowDown_not_Enter, String.eqb_refl. reflexivity.
Qed.

(** The handler on ArrowUp, when it is not read-only. *)
Lemma onKeyDown_ArrowUp (props : TDateInput) (ds : Downshift) (s : State) :
  isReadOnly props = false ->
  onKeyDown props ds s "ArrowUp"
  = let calendarItems := createCalendarItems (calendarDate s) in
    let index := Number (highlightedIndex s) in
    let prevDay := getPreviousDay (itemAt calendarItems index) in
    if negb (getIsDateInRange (Iso prevDay) (minValue props) (maxValue props))
    then (s, preventDownshiftDefault noEffects)
    else if numLe index 0
    then (jumpMonth s (-1) (getDaysInMonth prevDay - 1),
          preventDownshiftDefault noEffects)
    else (s, noEffects).
Proof.
  intros Hro. unfold onKeyDown. rewrite Hro.
  rewrite key_ArrowUp_not_Enter, key_ArrowUp_not_ArrowDown, String.eqb_refl.
  reflexivity.
Qed.

(** C1.  With the last day of the displayed month highlighted, ArrowDown
    moves the displayed month forward by exactly one month and highlights
    index 0 when the day after the highlighted day is in range; when it is
    out of range the displayed month, the highlighted index and the
    suggestions stay as they were.  Either way the event is marked, so that
    Downshift does not handle the key, and nothing else happens: no
    [clearSelection], no change event, no focus. *)
Theorem arrowDown_on_last_day (props : TDateInput) (ds : Downshift)
    (s : State) :
  isReadOnly props = false ->
  highlightedIndex s = HIdx (getDaysInMonth (calendarDate s) - 1) ->
  step props ds s (KeyDown "ArrowDown")
  = ((if getIsDateInRange (Iso (nextDay (lastDayOfMonth (calendarDate s))))
           (minValue props) (maxValue props)
      then {| calendarDate := changeMonth (calendarDate s) 1;
              suggestedItems := suggestedItems s;
              highlightedIndex := HIdx 0 |}
      else s),
     preventDownshiftDefault noEffects)
  /\ snd (step props ds s (KeyDown "ArrowDown"))
     = {| emitted := [];
          preventedDownshiftDefault := true;
          clearSelectionCalled := false;
          inputFocused := false |}
  /\ monthIndex (changeMonth (calendarDate s) 1)
     = monthIndex (calendarDate s) + 1.
Proof.
  intros Hro Hlast.
  assert (Hstep :
    step props ds s (KeyDown "ArrowDown")
    = ((if getIsDateInRange (Iso (nextDay (lastDayOfMonth (calendarDate s))))
             (minValue props) (maxValue props)
        then {| calendarDate := changeMonth (calendarDate s) 1;
                suggestedItems := suggestedItems s;
                highlightedIndex := HIdx 0 |}
        else s),
       preventDownshiftDefault noEffects));
    [|split; [exact Hstep|split;
               [rewrite Hstep; reflexivity|apply monthIndex_changeMonth]]].
  unfold step. rewrite onKeyDown_ArrowDown by assumption.
  cbv zeta. rewrite Hlast. unfold Number, getNextDay.
  rewrite itemAt_last. unfold momentOf.
  destruct (getIsDateInRange _ _ _); [|reflexivity].
  unfold negb, numSucc, numGe. rewrite length_createCalendarItems.
  replace (getDaysInMonth (calendarDate s) <=?
           getDaysInMonth (calendarDate s) - 1 + 1) with true
    by (symmetry; apply Z.leb_le; lia).
  reflexivity.
Qed.

(** C2.  With index 0 highlighted, ArrowUp moves the displayed month back by
    exactly one month and highlights the last index of that month's grid
    when the day before the highlighted day is in range; when it is out of
    range no state field changes.  Either way the event is marked, so that
    Downshift does not handle the key, and nothing else happens. *)
Theorem arrowUp_on_first_day (props : TDateInput) (ds : Downshift)
    (s : State) :
  isReadOnly props = false ->
  isValidDate (calendarDate s) = true ->
  highlightedIndex s = HIdx 0 ->
  let target := changeMonth (calendarDate s) (-1) in
  step props ds s (KeyDown "ArrowUp")
  = ((if getIsDateInRange
           (Iso (previousDay (firstDayOfMonth (calendarDate s))))
           (minValue props) (maxValue props)
      then {| calendarDate := target;
              suggestedItems := suggestedItems s;
              highlightedIndex := HIdx (getDaysInMonth target - 1) |}
      else s),
     preventDownshiftDefault noEffects)
  /\ snd (step props ds s (KeyDown "ArrowUp"))
     = {| emitted := [];
          preventedDownshiftDefault := true;
          clearSelectionCalled := false;
          inputFocused := false |}
  /\ monthIndex target = monthIndex (calendarDate s) - 1
  /\ getDaysInMonth target - 1
     = Z.of_nat (List.length (createCalendarItems target)) - 1.
Proof.
  intros Hro Hvalid Hfirst target.
  assert (Hstep :
    step props ds s (KeyDown "ArrowUp")
    = ((if getIsDateInRange
             (Iso (previousDay (firstDayOfMonth (calendarDate s))))
             (minValue props) (maxValue props)
        then {| calendarDate := target;
                suggestedItems := suggestedItems s;
                highlightedIndex := HIdx (getDaysInMonth target - 1) |}
        else s),
       preventDownshiftDefault noEffects)).
  { unfold step. rewrite onKeyDown_ArrowUp by assumption.
    cbv zeta. rewrite Hfirst. unfold Number, getPreviousDay.
    rewrite itemAt_first. unfold momentOf.
    destruct (getIsDateInRange _ _ _); [|reflexivity].
    unfold negb, numLe. change (0 <=? 0) with true. cbv iota.
    rewrite getDaysInMonth_previous by assumption. reflexivity. }
  split; [exact Hstep|]. split; [rewrite Hstep; reflexivity|]. split.
  - unfold target. rewrite monthIndex_changeMonth. lia.
  - rewrite length_createCalendarItems. reflexivity.
Qed.

(** C10.  With no cell highlighted ([null]), the arrow keys work from index
    0 of the displayed month: ArrowUp checks the day before the first day
    and, when it is in range, moves the displayed month back by one and
    highlights the last day of that month; ArrowDown checks the day after
    the first day.  ArrowUp always marks the event; ArrowDown marks it
    exactly when the day after the first day is out of range, and changes
    no state. *)
Theorem arrows_on_null_highlight (props : TDateInput) (ds : Downshift)
    (s : State) :
  isReadOnly props = false ->
  isValidDate (calendarDate s) = true ->
  highlightedIndex s = HNull ->
  let target := changeMonth (calendarDate s) (-1) in
  step props ds s (KeyDown "ArrowUp")
  = ((if getIsDateInRange
           (Iso (previousDay (firstDayOfMonth (calendarDate s))))
           (minValue props) (maxValue props)
      then {| calendarDate := target;
              suggestedItems := suggestedItems s;
              highlightedIndex := HIdx (getDaysInMonth target - 1) |}
      else s),
     preventDownshiftDefault noEffects)
  /\ step props ds s (KeyDown "ArrowDown")
     = (s,
        if getIsDateInRange
             (Iso (nextDay (firstDayOfMonth (calendarDate s))))
             (minValue props) (maxValue props)
        then noEffects
        else preventDownshiftDefault noEffects)
  /\ itemAt (createCalendarItems (calendarDate s))
        (Number (highlightedIndex s))
     = itemAt (createCalendarItems (calendarDate s)) (Some 0)
  /\ itemAt (createCalendarItems (calendarDate s))
        (Number (highlightedIndex s))
     = Some (firstDayOfMonth (calendarDate s))
  /\ snd (step props ds s (KeyDown "ArrowUp"))
     = {| emitted := [];
          preventedDownshiftDefault := true;
          clearSelectionCalled := false;
          inputFocused := false |}
  /\ snd (step props ds s (KeyDown "ArrowDown"))
     = {| emitted := [];
          preventedDownshiftDefault :=
            negb (getIsDateInRange
                    (Iso (nextDay (firstDayOfMonth (calendarDate s))))
                    (minValue props) (maxValue props));
          clearSelectionCalled := false;
          inputFocused := false |}.
Proof.
  intros Hro Hvalid Hnull target.
  assert (Hup :
    step props ds s (KeyDown "ArrowUp")
    = ((if getIsDateInRange
             (Iso (previousDay (firstDayOfMonth (calendarDate s))))
             (minValue props) (maxValue props)
        then {| calendarDate := target;
                suggestedItems := suggestedItems s;
                highlightedIndex := HIdx (getDaysInMonth target - 1) |}
        else s),
       preventDownshiftDefault noEffects)).
  { unfold step. rewrite onKeyDown_ArrowUp by assumption.
    cbv zeta. rewrite Hnull. unfold Number, getPreviousDay.
    rewrite itemAt_first. unfold momentOf.
    destruct (getIsDateInRange _ _ _); [|reflexivity].
    unfold negb, numLe. change (0 <=? 0) with true. cbv iota.
    rewrite getDaysInMonth_previous by assumption. reflexivity. }
  assert (Hdown :
    step props ds s (KeyDown "ArrowDown")
    = (s,
       if getIsDateInRange
            (Iso (nextDay (firstDayOfMonth (calendarDate s))))
            (minValue props) (maxValue props)
       then noEffects
       else preventDownshiftDefault noEffects)).
  { unfold step. rewrite onKeyDown_ArrowDown by assumption.
    cbv zeta. rewrite Hnull. unfold Number, getNextDay.
    rewrite itemAt_first. unfold momentOf.
    destruct (getIsDateInRange
                (Iso (nextDay (firstDayOfMonth (calendarDate s))))
                (minValue props) (maxValue props)); [|reflexivity].
    unfold negb, numSucc, numGe. rewrite length_createCalendarItems.
    pose proof (daysIn_bounds (year (calendarDate s))
                  (month (calendarDate s))).
    replace (getDaysInMonth (calendarDate s) <=? 0 + 1) with false
      by (symmetry; apply Z.leb_gt; unfold getDaysInMonth; lia).
    reflexivity. }
  split; [exact Hup|]. split; [exact Hdown|].
  split; [rewrite Hnull; reflexivity|].
  split; [rewrite Hnull; apply itemAt_first|].
  split; [rewrite Hup; reflexivity|].
  rewrite Hdown.
  destruct (getIsDateInRange
              (Iso (nextDay (firstDayOfMonth (calendarDate s))))
              (minValue props) (maxValue props)); reflexivity.
Qed.

(** *** Read-only input *)

Lemma onKeyDown_readOnly (props : TDateInput) (ds : Downshift) (s : State)
    (key : string) :
  isReadOnly props = true ->
  onKeyDown props ds s key = (s, preventDownshiftDefault noEffects).
Proof. intros Hro. unfold onKeyDown. rewrite Hro. reflexivity. Qed.

(** C9.  While [isReadOnly] is true, the key handler marks every keydown
    event for Downshift and returns: the displayed month, the highlighted
    index and the suggestions stay as they were, [clearSelection] is not
    called and nothing reaches [onChange], whatever the key. *)
Theorem readOnly_keyDown_is_inert (props : TDateInput) (ds : Downshift)
    (s : State) (key : string) :
  isReadOnly props = true ->
  step props ds s (KeyDown key) = (s, preventDownshiftDefault noEffects)
  /\ preventedDownshiftDefault (snd (step props ds s (KeyDown key))) = true
  /\ keyDownEmits props ds s key = [].
Proof.
  intros Hro. unfold keyDownEmits, step.
  rewrite onKeyDown_readOnly by assumption. simpl.
  rewrite andb_false_r. auto.
Qed.

(** *** Header buttons *)

(** C6.  The previous/next month and previous/next year buttons set the
    displayed month to the current one shifted by -1, +1, -12 or +12 months
    and the highlighted index to 0, whatever [minValue] and [maxValue]
    are. *)
Theorem header_navigation_is_unrestricted (props : TDateInput)
    (ds : Downshift) (s : State) :
  let moved amount :=
    ({| calendarDate := changeMonth (calendarDate s) amount;
        suggestedItems := suggestedItems s;
        highlightedIndex := HIdx 0 |}, noEffects) in
  step props ds s PrevMonthClick = moved (-1)
  /\ step props ds s NextMonthClick = moved 1
  /\ step props ds s PrevYearClick = moved (-12)
  /\ step props ds s NextYearClick = moved 12
  /\ forall amount,
       monthIndex (changeMonth (calendarDate s) amount)
       = monthIndex (calendarDate s) + amount.
Proof.
  cbv zeta. repeat split; try reflexivity.
  intros amount. apply monthIndex_changeMonth.
Qed.

(** The "today" button when nothing is suggested: today's month is
    displayed, today's cell is highlighted and the input is focused. *)
Lemma showToday_without_suggestions (s : State) :
  suggestedItems s = [] ->
  showToday s
  = ({| calendarDate := getToday;
        suggestedItems := [];
        highlightedIndex := HIdx (getDateInMonth getToday - 1) |},
     focusInput noEffects).
Proof.
  intros Hnone. unfold showToday, setHighlightedIndex, setCalendarDate; simpl.
  rewrite Hnone. simpl. reflexivity.
Qed.

(** With suggestions held, the "today" button highlights a later cell. *)
Lemma showToday_with_suggestions (s : State) :
  suggestedItems s <> [] ->
  highlightedIndex (fst (showToday s)) <> HIdx (getDateInMonth getToday - 1).
Proof.
  intros Hsome. unfold showToday, setHighlightedIndex.
  cbn [fst highlightedIndex].
  destruct (suggestedItems s) as [|d l]; [contradiction|].
  intros Heq.
  assert (Hinj : forall a b, HIdx a = HIdx b -> a = b)
    by (intros a b E; congruence).
  apply Hinj in Heq.
  change (List.length (d :: l)) with (S (List.length l)) in Heq. lia.
Qed.

Lemma showToday_highlight (s : State) :
  highlightedIndex (fst (showToday s))
  = HIdx (Z.of_nat (List.length (suggestedItems s))
          + getDateInMonth getToday - 1).
Proof. reflexivity. Qed.

(** *** A missing [onChange] *)

Lemma emit_withOnChange_false (props : TDateInput) (v : option DateString) :
  emit (withOnChange false props) v = [].
Proof. reflexivity. Qed.

Lemma onInputBlur_withOnChange_false (props : TDateInput)
    (targetValue : option string) :
  onInputBlur (withOnChange false props) targetValue = [].
Proof.
  unfold onInputBlur. rewrite emit_withOnChange_false.
  destruct (String.length _ =? 0)%nat;
    destruct (parseInputToDate _ _); simpl;
    try reflexivity;
    destruct (negb _); reflexivity.
Qed.

Lemma reportSelection_withOnChange_false (props : TDateInput)
    (ds : Downshift) (s : State) (selection : option DateString) :
  reportSelection (withOnChange false props) ds s selection = [].
Proof.
  unfold reportSelection, handleChange. rewrite emit_withOnChange_false.
  destruct (sameSelection _ _); reflexivity.
Qed.

Lemma keyDownEmits_withOnChange_false (props : TDateInput) (ds : Downshift)
    (s : State) (key : string) :
  keyDownEmits (withOnChange false props) ds s key = [].
Proof.
  assert (Henter : enterDefault (withOnChange false props) ds s = []).
  { unfold enterDefault.
    destruct (isOpen ds); [|reflexivity].
    destruct (highlightedIndex s) as [| |i]; try reflexivity.
    destruct (itemAt (days (render (withOnChange false props) ds s)) (Some i))
      as [cell|]; [|reflexivity].
    rewrite reportSelection_withOnChange_false.
    destruct (disabled cell); reflexivity. }
  unfold keyDownEmits, clearSelection.
  rewrite Henter, reportSelection_withOnChange_false.
  destruct (clearSelectionCalled _);
    destruct ((key =? "Enter")%string && _); reflexivity.
Qed.

Lemma onKeyDown_withOnChange (b : bool) (props : TDateInput) (ds : Downshift)
    (s : State) (key : string) :
  onKeyDown (withOnChange b props) ds s key = onKeyDown props ds s key.
Proof. reflexivity. Qed.

Lemma render_withOnChange (b : bool) (props : TDateInput) (ds : Downshift)
    (s : State) :
  render (withOnChange b props) ds s = render props ds s.
Proof. reflexivity. Qed.

(** C8.  Without [onChange] on an input that is not read-only, rendering
    logs the warning and nothing else differs: every event leaves the state
    and sets the marks it would with [onChange] present, the same grid is
    rendered, and no change event is delivered.  No handler has a failing
    path. *)
Theorem missing_onChange_only_warns (props : TDateInput) :
  isReadOnly props = false ->
  warnings (withOnChange false props) = [warningMessage]
  /\ warnings (withOnChange true props) = []
  /\ forall (ds : Downshift) (s : State),
       render (withOnChange false props) ds s
       = render (withOnChange true props) ds s
       /\ forall ev : Event,
            let without := step (withOnChange false props) ds s ev in
            let present := step (withOnChange true props) ds s ev in
            fst without = fst present
            /\ preventedDownshiftDefault (snd without)
               = preventedDownshiftDefault (snd present)
            /\ clearSelectionCalled (snd without)
               = clearSelectionCalled (snd present)
            /\ inputFocused (snd without) = inputFocused (snd present)
            /\ emitted (snd without) = []
            /\ forall key,
                 keyDownEmits (withOnChange false props) ds s key = [].
Proof.
  intros Hro. unfold warnings. simpl. rewrite Hro. simpl.
  split; [reflexivity|]. split; [reflexivity|].
  intros ds s. split; [reflexivity|].
  intros ev. cbv zeta.
  assert (Hkeys : forall key,
             keyDownEmits (withOnChange false props) ds s key = [])
    by (intros key; apply keyDownEmits_withOnChange_false).
  destruct ev as [changes|key|targetValue|date| | | | | ]; simpl;
    repeat split; try reflexivity; try exact Hkeys.
  - unfold onKeyDown; simpl.
    destruct (isReadOnly props); [reflexivity|].
    destruct ((key =? "Enter")%string && _);
      destruct (key =? "ArrowDown")%string;
      destruct (key =? "ArrowUp")%string;
      repeat match goal with
             | |- context [if ?c then _ else _] => destruct c
             end; reflexivity.
  - apply onInputBlur_withOnChange_false.
Qed.

(** *** What reaches [onChange] *)

Lemma emit_value (props : TDateInput) (v : option DateString)
    (e : TCustomEvent) :
  In e (emit props v) -> target_value e = orEmptyString v.
Proof.
  unfold emit. destruct (onChange props); simpl; [|tauto].
  intros [<-|[]]. reflexivity.
Qed.

Lemma emit_present (props : TDateInput) (v : option DateString) :
  onChange props = true ->
  emit props v
  = [ {| target_id := id props;
         target_name := name props;
         target_value := orEmptyString v |} ].
Proof. intros Hon. unfold emit. rewrite Hon. reflexivity. Qed.

Lemma reportSelection_value (props : TDateInput) (ds : Downshift) (s : State)
    (selection : option DateString) (e : TCustomEvent) :
  In e (reportSelection props ds s selection) ->
  target_value e = orEmptyString selection.
Proof.
  unfold reportSelection, handleChange.
  destruct (sameSelection _ _); simpl; [tauto|]. apply emit_value.
Qed.

(** A rendered cell is disabled exactly when its day is out of range. *)
Lemma rendered_cell_disabled (props : TDateInput) (ds : Downshift)
    (s : State) (i : option Z) (cell : CalendarDay) :
  itemAt (days (render props ds s)) i = Some cell ->
  disabled cell
  = negb (getIsDateInRange (Iso (item cell)) (minValue props)
            (maxValue props)).
Proof.
  unfold itemAt. destruct i as [i|]; [|discriminate].
  destruct (i <? 0); [discriminate|].
  intros Hnth. apply nth_error_In in Hnth.
  unfold render in Hnth; simpl in Hnth.
  destruct (menuIsShown props ds); [|contradiction].
  apply in_map_iff in Hnth. destruct Hnth as [[index it] [<- _]].
  reflexivity.
Qed.

(** Downshift's handling of Enter commits only days that are in range. *)
Lemma enterDefault_value (props : TDateInput) (ds : Downshift) (s : State)
    (e : TCustomEvent) :
  In e (enterDefault props ds s) ->
  exists d,
    target_value e = Iso d
    /\ getIsDateInRange (Iso d) (minValue props) (maxValue props) = true.
Proof.
  unfold enterDefault.
  destruct (isOpen ds); [|contradiction].
  destruct (highlightedIndex s) as [| |i]; try contradiction.
  destruct (itemAt (days (render props ds s)) (Some i)) as [cell|] eqn:Hcell;
    [|contradiction].
  rewrite (rendered_cell_disabled _ _ _ _ _ Hcell).
  destruct (getIsDateInRange (Iso (item cell)) _ _) eqn:Hin; simpl;
    [|contradiction].
  intros He. apply reportSelection_value in He.
  exists (item cell). auto.
Qed.

(** A key press commits the empty string or a day that is in range. *)
Lemma keyDownEmits_value (props : TDateInput) (ds : Downshift) (s : State)
    (key : string) (e : TCustomEvent) :
  In e (keyDownEmits props ds s key) ->
  target_value e = Empty
  \/ exists d,
       target_value e = Iso d
       /\ getIsDateInRange (Iso d) (minValue props) (maxValue props) = true.
Proof.
  unfold keyDownEmits. intros He. apply in_app_or in He.
  destruct He as [He|He].
  - destruct (clearSelectionCalled _); [|contradiction].
    apply reportSelection_value in He. left. exact He.
  - destruct ((key =? "Enter")%string && _); [|contradiction].
    right. apply enterDefault_value with (ds := ds) (s := s). exact He.
Qed.

(** *** Typing *)

Lemma onStateChange_typed (props : TDateInput) (s : State)
    (changes : Changes) (text : string) :
  changes_type changes = changeInput ->
  changes_inputValue changes = Some text ->
  onStateChange props s changes
  = match parseInputToDate text locale with
    | Empty =>
        {| calendarDate := calendarDate s;
           suggestedItems := [];
           highlightedIndex := HNull |}
    | Iso d =>
        {| calendarDate := d;
           suggestedItems := [d];
           highlightedIndex :=
             if getIsDateInRange (Iso d) (minValue props) (maxValue props)
             then HIdx (getDateInMonth d - 1)
             else highlightedIndex s |}
    end.
Proof.
  intros Htype Htext. unfold onStateChange. rewrite Htext, Htype.
  change (isChangeInput changeInput) with true. cbv iota.
  destruct (parseInputToDate text locale) as [|d]; [reflexivity|].
  destruct (getIsDateInRange (Iso d) (minValue props) (maxValue props));
    reflexivity.
Qed.

(** What the handler does with typed text that parses to a date outside
    [minValue, maxValue]: that date becomes the displayed one and the only
    suggestion, [setHighlightedIndex] is not called, and Enter, pressed
    then, never commits the typed date. *)
Lemma typed_out_of_range_date (props : TDateInput) (ds : Downshift)
    (s : State) (changes : Changes) (text : string) (d : CalendarDate) :
  changes_type changes = changeInput ->
  changes_inputValue changes = Some text ->
  parseInputToDate text locale = Iso d ->
  getIsDateInRange (Iso d) (minValue props) (maxValue props) = false ->
  let s' := fst (step props ds s (StateChange changes)) in
  s' = {| calendarDate := d;
          suggestedItems := [d];
          highlightedIndex := highlightedIndex s |}
  /\ forall (ds' : Downshift) (e : TCustomEvent),
       In e (keyDownEmits props ds' s' "Enter") -> target_value e <> Iso d.
Proof.
  intros Htype Htext Hparse Hout s'. split.
  - unfold s', step; simpl.
    rewrite (onStateChange_typed _ _ _ _ Htype Htext), Hparse, Hout.
    reflexivity.
  - intros ds' e He. apply keyDownEmits_value in He.
    destruct He as [He|[d' [He Hin]]]; rewrite He.
    + discriminate.
    + intros Heq. injection Heq as ->. congruence.
Qed.

(** *** Leaving the input *)

(** C4, amended.  On blur of the text input: empty text (length 0) emits
    the empty string; other text that parses to a date in range emits that
    date; any other text, whitespace included, emits nothing, so the
    consumer keeps the value it had.  The state is untouched and no handler
    path fails. *)
Theorem blur_emits (props : TDateInput) (ds : Downshift) (s : State)
    (targetValue : option string) :
  onChange props = true ->
  let text := match targetValue with Some t => t | None => ""%string end in
  let event v :=
    {| target_id := id props; target_name := name props;
       target_value := v |} in
  let out := emitted (snd (step props ds s (InputBlur targetValue))) in
  fst (step props ds s (InputBlur targetValue)) = s
  /\ out
     = (if (String.length text =? 0)%nat then [event Empty]
        else match parseInputToDate text locale with
             | Iso d =>
                 if getIsDateInRange (Iso d) (minValue props) (maxValue props)
                 then [event (Iso d)] else []
             | Empty => []
             end)
  /\ (out = [] -> committedValue (value props) out = value props).
Proof.
  intros Hon text event out. split; [reflexivity|]. split.
  - unfold out, step; simpl. unfold onInputBlur. fold text.
    rewrite !emit_present by assumption.
    destruct (String.length text =? 0)%nat eqn:Hlen.
    + assert (Hempty : text = ""%string).
      { destruct text; [reflexivity|discriminate]. }
      rewrite parse_blank by (rewrite Hempty; reflexivity).
      reflexivity.
    + destruct (parseInputToDate text locale) as [|d]; [reflexivity|].
      destruct (getIsDateInRange (Iso d) (minValue props) (maxValue props));
        reflexivity.
  - intros ->. reflexivity.
Qed.

(** *** Blank text *)

Lemma onKeyDown_Enter (props : TDateInput) (ds : Downshift) (s : State) :
  isReadOnly props = false ->
  onKeyDown props ds s "Enter"
  = (s, if isBlankInput (inputValue ds)
        then callClearSelection noEffects else noEffects).
Proof. intros Hro. unfold onKeyDown. rewrite Hro. reflexivity. Qed.

(** C7, amended.  Typing blank text (empty, or only the white space
    [trim] removes) clears the suggestions and the highlight.  Enter on blank text calls [clearSelection]: when a date is
    selected, [onChange] receives one event whose value is the empty string
    (the [null] of the cleared selection coerced to it); when the value is
    already empty, no event is delivered. *)
Theorem blank_text_clears (props : TDateInput) (ds ds' : Downshift)
    (s : State) (changes : Changes) (text : string) :
  isReadOnly props = false ->
  onChange props = true ->
  changes_type changes = changeInput ->
  changes_inputValue changes = Some text ->
  trim text = ""%string ->
  inputValue ds' = Some text ->
  let s' := fst (step props ds s (StateChange changes)) in
  s' = {| calendarDate := calendarDate s;
          suggestedItems := [];
          highlightedIndex := HNull |}
  /\ clearSelectionCalled (snd (step props ds' s' (KeyDown "Enter"))) = true
  /\ keyDownEmits props ds' s' "Enter"
     = match value props with
       | Empty => []
       | Iso _ =>
           [ {| target_id := id props; target_name := name props;
                target_value := Empty |} ]
       end.
Proof.
  intros Hro Hon Htype Htext Hblank Hinput s'.
  assert (Hs' : s' = {| calendarDate := calendarDate s;
                        suggestedItems := [];
                        highlightedIndex := HNull |}).
  { unfold s', step; simpl.
    rewrite (onStateChange_typed _ _ _ _ Htype Htext).
    rewrite parse_blank by assumption. reflexivity. }
  assert (Hb : isBlankInput (inputValue ds') = true).
  { rewrite Hinput. unfold isBlankInput. rewrite Hblank. reflexivity. }
  split; [exact Hs'|]. split.
  - unfold step. rewrite onKeyDown_Enter by assumption. rewrite Hb.
    reflexivity.
  - unfold keyDownEmits. rewrite onKeyDown_Enter by assumption. rewrite Hb.
    simpl. unfold enterDefault. rewrite Hs'. simpl.
    replace (if isOpen ds' then [] else []) with (@nil TCustomEvent)
      by (destruct (isOpen ds'); reflexivity).
    rewrite app_nil_r.
    unfold clearSelection, reportSelection, handleChange; simpl.
    destruct (value props); simpl; [reflexivity|].
    apply emit_present. assumption.
Qed.

(** *** The displayed date stays a real day *)

Lemma changeMonth_valid (d : CalendarDate) (amount : Z) :
  isValidDate d = true -> isValidDate (changeMonth d amount) = true.
Proof.
  unfold isValidDate. rewrite !andb_true_iff, !Z.leb_le.
  intros [[[Hm1 Hm12] Hd1] Hd]. unfold changeMonth; simpl.
  pose proof (Z.mod_pos_bound (monthIndex d + amount) 12 ltac:(lia)).
  pose proof (daysIn_bounds ((monthIndex d + amount) / 12)
                ((monthIndex d + amount) mod 12 + 1)).
  repeat split; lia.
Qed.

Lemma initialState_valid (props : TDateInput) :
  isValidDate getToday = true ->
  (forall d, value props = Iso d -> isValidDate d = true) ->
  isValidDate (calendarDate (initialState props)) = true.
Proof.
  intros Htoday Hvalue. unfold initialState; simpl.
  destruct (value props) as [|d]; [assumption|].
  apply Hvalue. reflexivity.
Qed.

Lemma step_keeps_valid (props : TDateInput) (ds : Downshift) (s : State)
    (ev : Event) :
  isValidDate getToday = true ->
  (forall text d,
      parseInputToDate text locale = Iso d -> isValidDate d = true) ->
  isValidDate (calendarDate s) = true ->
  isValidDate (calendarDate (fst (step props ds s ev))) = true.
Proof.
  intros Htoday Hparse Hs.
  destruct ev as [changes|key|targetValue|date| | | | | ]; simpl;
    try assumption; try (apply changeMonth_valid; assumption).
  - unfold onStateChange.
    destruct (changes_inputValue changes) as [text|].
    + destruct (isChangeInput (changes_type changes)); [|assumption].
      destruct (parseInputToDate text locale) as [|d] eqn:Hd; [assumption|].
      simpl. apply (Hparse text d Hd).
    + destruct (changes_highlightedIndex changes); assumption.
  - unfold onKeyDown.
    repeat match goal with
           | |- context [if ?c then _ else _] => destruct c
           end; simpl; try assumption; apply changeMonth_valid; assumption.
Qed.

(** *** The canonical parser *)

Lemma trimEnd_keeps (ch : string) (rest : list string) :
  isWhitespace ch = false -> trimEnd (ch :: rest) <> [].
Proof.
  intros Hc. simpl. destruct (trimEnd rest); rewrite ?Hc; discriminate.
Qed.

(** A text that starts with a digit is not blank. *)
Lemma blank_starts_with_no_digit (c : ascii) (rest : string) :
  trim (String c rest) = ""%string -> digit c = None.
Proof.
  unfold digit. cbv zeta.
  destruct ((48 <=? Z.of_nat (nat_of_ascii c))
            && (Z.of_nat (nat_of_ascii c) <=? 57)) eqn:Hdigit;
    [|reflexivity].
  apply andb_true_iff in Hdigit. destruct Hdigit as [Hlo Hhi].
  apply Z.leb_le in Hlo. apply Z.leb_le in Hhi.
  assert (Hchars : characters (String c rest)
                   = String c EmptyString :: characters rest).
  { cbn [characters]. unfold byteOf.
    replace (Z.of_nat (nat_of_ascii c) <? 194) with true
      by (symmetry; apply Z.ltb_lt; lia).
    reflexivity. }
  assert (Hws : isWhitespace (String c EmptyString) = false).
  { cbn [isWhitespace]. unfold byteOf. cbv zeta.
    replace (Z.of_nat (nat_of_ascii c) =? 32) with false
      by (symmetry; apply Z.eqb_neq; lia).
    replace (Z.of_nat (nat_of_ascii c) <=? 13) with false
      by (symmetry; apply Z.leb_gt; lia).
    replace (Z.of_nat (nat_of_ascii c) =? 160) with false
      by (symmetry; apply Z.eqb_neq; lia).
    rewrite andb_false_r. reflexivity. }
  unfold trim. rewrite Hchars. cbn [trimStart]. rewrite Hws.
  pose proof (trimEnd_keeps _ (characters rest) Hws) as Hkeep.
  cbn [trimEnd] in *.
  destruct (trimEnd (characters rest)) as [|k kept].
  - rewrite Hws. discriminate.
  - cbn [String.concat]. discriminate.
Qed.

Lemma parseIso_blank (text locale' : string) :
  trim text = ""%string -> parseIso text locale' = Empty.
Proof.
  destruct text as [|c rest]; [reflexivity|].
  intros Hblank. apply blank_starts_with_no_digit in Hblank.
  destruct rest as [|y2 [|y3 [|y4 [|s1 [|m1 [|m2 [|s2 [|d1 [|d2 [|x r]]]]]]]]]];
    try reflexivity.
  unfold parseIso, digits2. rewrite Hblank. reflexivity.
Qed.

Lemma parseIso_valid (text locale' : string) (d : CalendarDate) :
  parseIso text locale' = Iso d -> isValidDate d = true.
Proof.
  destruct text as [|y1 [|y2 [|y3 [|y4 [|s1 [|m1 [|m2 [|s2 [|d1 [|d2 [|x r]
    ]]]]]]]]]]; try discriminate.
  unfold parseIso.
  destruct (digits2 y1 y2), (digits2 y3 y4), (digits2 m1 m2), (digits2 d1 d2);
    try discriminate.
  match goal with
  | |- context [isValidDate ?date] => destruct (isValidDate date) eqn:Hv
  end.
  - destruct (isDash s1 && isDash s2); simpl; [|discriminate].
    intros H. injection H as <-. exact Hv.
  - rewrite andb_false_r. discriminate.
Qed.

(** *** The rendered grid *)

Lemma nth_error_indexed_from {A : Type} (l : list A) (a n : nat) :
  nth_error (combine (seq a (List.length l)) l) n
  = option_map (fun x => ((a + n)%nat, x)) (nth_error l n).
Proof.
  revert a n. induction l as [|x l IH]; intros a n.
  - destruct n; reflexivity.
  - destruct n as [|n]; simpl.
    + rewrite Nat.add_0_r. reflexivity.
    + rewrite IH, Nat.add_succ_comm. reflexivity.
Qed.

(** The cell at a position of the rendered grid. *)
Lemma days_lookup (props : TDateInput) (ds : Downshift) (s : State) (i : Z) :
  itemAt (days (render props ds s)) (Some i)
  = if menuIsShown props ds && (0 <=? i)
       && (i <? getDaysInMonth (calendarDate s))
    then Some (renderDay props s
                 (Z.to_nat i,
                  mkDate (year (calendarDate s)) (month (calendarDate s))
                    (i + 1)))
    else None.
Proof.
  unfold render; cbn [days]. unfold itemAt.
  destruct (menuIsShown props ds); cbn [andb].
  - destruct (Z.leb_spec 0 i) as [Hge|Hlt]; cbn [andb].
    + replace (i <? 0) with false by (symmetry; apply Z.ltb_ge; lia).
      rewrite nth_error_map, nth_error_indexed_from. cbn [Nat.add].
      destruct (Z.ltb_spec i (getDaysInMonth (calendarDate s))) as [Hin|Hout].
      * pose proof (itemAt_createCalendarItems (calendarDate s) i
                      (conj Hge Hin)) as Hitem.
        unfold itemAt in Hitem.
        replace (i <? 0) with false in Hitem
          by (symmetry; apply Z.ltb_ge; lia).
        rewrite Hitem. reflexivity.
      * replace (nth_error (createCalendarItems (calendarDate s))
                   (Z.to_nat i)) with (@None CalendarDate); [reflexivity|].
        symmetry. apply nth_error_None.
        pose proof (length_createCalendarItems (calendarDate s)). lia.
    + replace (i <? 0) with true by (symmetry; apply Z.ltb_lt; lia).
      reflexivity.
  - destruct (i <? 0); [reflexivity|]. destruct (Z.to_nat i); reflexivity.
Qed.

Lemma isIndex_spec (i : Z) (h : Highlight) :
  isIndex i h = true <-> h = HIdx i.
Proof.
  destruct h as [| |j]; simpl; split; try discriminate.
  - intros H. apply Z.eqb_eq in H. subst. reflexivity.
  - intros H. injection H as ->. apply Z.eqb_refl.
Qed.

(** X1.  The grid has one cell per day of the displayed month, in order,
    when the menu is shown, and no cell otherwise; a disabled or read-only
    input never shows the menu, open or with the filter appearance. *)
Theorem grid_shape (props : TDateInput) (ds : Downshift) (s : State) :
  map item (days (render props ds s))
  = (if menuIsShown props ds
     then createCalendarItems (calendarDate s) else [])
  /\ Z.of_nat (List.length (days (render props ds s)))
     = (if menuIsShown props ds
        then getDaysInMonth (calendarDate s) else 0)
  /\ (isDisabled props || isReadOnly props = true ->
      menuIsShown props ds = false).
Proof.
  assert (Hitems : forall (l : list CalendarDate) (a : nat),
             map item (map (renderDay props s)
                         (combine (seq a (List.length l)) l)) = l).
  { induction l as [|x l IH]; intros a; simpl; [reflexivity|].
    rewrite IH. reflexivity. }
  split; [|split].
  - unfold render; cbn [days].
    destruct (menuIsShown props ds); [apply Hitems|reflexivity].
  - unfold render; cbn [days].
    destruct (menuIsShown props ds); [|reflexivity].
    rewrite length_map, length_combine, length_seq, Nat.min_id.
    apply length_createCalendarItems.
  - unfold menuIsShown.
    destruct (isDisabled props), (isReadOnly props), (isOpen ds);
      simpl; try discriminate; intros _;
      destruct (appearance props) as [[|]|]; reflexivity.
Qed.

(** X2.  The cell at position [i] of the grid shows day [i + 1] of the
    displayed month; it is highlighted exactly when [i] is the highlighted
    index, disabled exactly when its day is out of range, selected exactly
    when its day is the value, and today exactly when its day is today. *)
Theorem grid_cell (props : TDateInput) (ds : Downshift) (s : State) (i : Z)
    (cell : CalendarDay) :
  itemAt (days (render props ds s)) (Some i) = Some cell ->
  0 <= i < getDaysInMonth (calendarDate s)
  /\ item cell
     = mkDate (year (calendarDate s)) (month (calendarDate s)) (i + 1)
  /\ (isHighlighted cell = true <-> highlightedIndex s = HIdx i)
  /\ disabled cell
     = negb (getIsDateInRange (Iso (item cell)) (minValue props)
               (maxValue props))
  /\ (isSelected cell = true <-> value props = Iso (item cell))
  /\ (isToday cell = true <-> item cell = getToday).
Proof.
  rewrite days_lookup.
  destruct (menuIsShown props ds); cbn [andb]; [|discriminate].
  destruct (Z.leb_spec 0 i) as [Hge|]; cbn [andb]; [|discriminate].
  destruct (Z.ltb_spec i (getDaysInMonth (calendarDate s))) as [Hlt|];
    [|discriminate].
  intros Hcell. injection Hcell as <-. unfold renderDay; cbn.
  split; [lia|]. split; [reflexivity|]. split; [|split; [reflexivity|split]].
  - rewrite Z2Nat.id by lia. apply isIndex_spec.
  - unfold isSameDay. destruct (value props) as [|v].
    + split; discriminate.
    + rewrite CalendarDate_eqb_eq. split; [intros ->; reflexivity|].
      intros H. injection H as ->. reflexivity.
  - unfold isSameDay. rewrite CalendarDate_eqb_eq.
    split; intros H; symmetry; exact H.
Qed.

(** *** What a key press and a blur can deliver *)

Lemma emit_shape (props : TDateInput) (v : option DateString) :
  Forall (fun e =>
            target_id e = id props /\ target_name e = name props
            /\ target_value e = orEmptyString v)
         (emit props v)
  /\ (List.length (emit props v) <= 1)%nat.
Proof.
  unfold emit. destruct (onChange props); simpl; split;
    try lia; repeat constructor.
Qed.

Lemma reportSelection_shape (props : TDateInput) (ds : Downshift) (s : State)
    (selection : option DateString) :
  Forall (fun e =>
            target_id e = id props /\ target_name e = name props
            /\ target_value e = orEmptyString selection)
         (reportSelection props ds s selection)
  /\ (List.length (reportSelection props ds s selection) <= 1)%nat.
Proof.
  unfold reportSelection, handleChange.
  destruct (sameSelection _ _); [|apply emit_shape].
  split; [constructor|simpl; lia].
Qed.

(** The handler asks for [clearSelection] only on Enter. *)
Lemma onKeyDown_clears_on_Enter (props : TDateInput) (ds : Downshift)
    (s : State) (key : string) :
  (key =? "Enter")%string = false ->
  clearSelectionCalled (snd (onKeyDown props ds s key)) = false.
Proof.
  intros Hkey. unfold onKeyDown. rewrite Hkey. cbn [andb].
  repeat match goal with
         | |- context [if ?c then _ else _] => destruct c
         end; reflexivity.
Qed.

(** X3.  What Enter delivers to [onChange]: at most two events, each
    naming the field by [id] and [name] and carrying the empty string or
    the day of the highlighted cell, which is then a cell of the grid that
    is not disabled. *)
Theorem enter_commits (props : TDateInput) (ds : Downshift) (s : State) :
  Forall (fun e =>
            target_id e = id props /\ target_name e = name props
            /\ (target_value e = Empty
                \/ exists i cell,
                     highlightedIndex s = HIdx i
                     /\ itemAt (days (render props ds s)) (Some i)
                        = Some cell
                     /\ disabled cell = false
                     /\ target_value e = Iso (item cell)))
         (keyDownEmits props ds s "Enter")
  /\ (List.length (keyDownEmits props ds s "Enter") <= 2)%nat.
Proof.
  assert (Henter :
    Forall (fun e =>
              target_id e = id props /\ target_name e = name props
              /\ exists i cell,
                   highlightedIndex s = HIdx i
                   /\ itemAt (days (render props ds s)) (Some i) = Some cell
                   /\ disabled cell = false
                   /\ target_value e = Iso (item cell))
           (enterDefault props ds s)
    /\ (List.length (enterDefault props ds s) <= 1)%nat).
  { unfold enterDefault.
    destruct (isOpen ds); [|split; [constructor|simpl; lia]].
    destruct (highlightedIndex s) as [| |i] eqn:Hh;
      try (split; [constructor|simpl; lia]).
    destruct (itemAt (days (render props ds s)) (Some i)) as [cell|] eqn:Hc;
      [|split; [constructor|simpl; lia]].
    destruct (disabled cell) eqn:Hd; [split; [constructor|simpl; lia]|].
    destruct (reportSelection_shape props ds s (Some (Iso (item cell))))
      as [Hall Hlen].
    split; [|exact Hlen].
    eapply Forall_impl; [|exact Hall].
    intros e (Hid & Hname & Hval). repeat split; try assumption.
    exists i, cell. auto. }
  destruct Henter as [Henter Hlen].
  destruct (reportSelection_shape props ds s None) as [Hclear Hclen].
  split.
  - unfold keyDownEmits, clearSelection. apply Forall_app. split.
    + destruct (clearSelectionCalled _); [|constructor].
      eapply Forall_impl; [|exact Hclear].
      intros e (Hid & Hname & Hval). repeat split; auto.
    + destruct (_ && _); [|constructor].
      eapply Forall_impl; [|exact Henter].
      intros e (Hid & Hname & Hex). repeat split; auto.
  - unfold keyDownEmits, clearSelection. rewrite length_app.
    destruct (clearSelectionCalled _);
      destruct (_ && _); simpl in *; lia.
Qed.

(** X4.  Whatever the parser answers, a blur delivers at most two events,
    each naming the field by [id] and [name], and never a date outside
    [minValue, maxValue]: a value delivered is the empty string or the date
    the text parses to, and that date is in range. *)
Theorem blur_commits (props : TDateInput) (ds : Downshift) (s : State)
    (targetValue : option string) :
  let text := match targetValue with Some t => t | None => ""%string end in
  let out := emitted (snd (step props ds s (InputBlur targetValue))) in
  Forall (fun e =>
            target_id e = id props /\ target_name e = name props
            /\ (target_value e = Empty
                \/ exists d,
                     target_value e = Iso d
                     /\ parseInputToDate text locale = Iso d
                     /\ getIsDateInRange (Iso d) (minValue props)
                          (maxValue props) = true))
         out
  /\ (List.length out <= 2)%nat
  /\ (onChange props = false \/ text <> ""%string ->
      (List.length out <= 1)%nat).
Proof.
  intros text out. unfold out, step; cbn [snd emitted emitting].
  unfold onInputBlur. fold text.
  destruct (emit_shape props (Some Empty)) as [Hempty Hlen0].
  split; [|split].
  - apply Forall_app. split.
    + destruct (String.length text =? 0)%nat; [|constructor].
      eapply Forall_impl; [|exact Hempty].
      intros e (Hid & Hname & Hval). repeat split; auto.
    + destruct (parseInputToDate text locale) as [|d] eqn:Hparse;
        [constructor|].
      destruct (getIsDateInRange (Iso d) (minValue props) (maxValue props))
        eqn:Hin; cbn [negb]; [|constructor].
      destruct (emit_shape props (Some (Iso d))) as [Hd _].
      eapply Forall_impl; [|exact Hd].
      intros e (Hid & Hname & Hval). repeat split; auto.
      right. exists d. auto.
  - rewrite length_app.
    assert (Hsecond :
      (List.length
         match parseInputToDate text locale with
         | Empty => []
         | Iso _ =>
             if negb (getIsDateInRange (parseInputToDate text locale)
                        (minValue props) (maxValue props))
             then [] else emit props (Some (parseInputToDate text locale))
         end <= 1)%nat).
    { destruct (parseInputToDate text locale) as [|d]; [simpl; lia|].
      destruct (negb _); [simpl; lia|]. apply emit_shape. }
    destruct (String.length text =? 0)%nat; simpl in *; lia.
  - intros Hcase. rewrite length_app.
    destruct Hcase as [Hoff|Htext].
    + unfold emit. rewrite Hoff.
      destruct (String.length text =? 0)%nat;
        destruct (parseInputToDate text locale);
        try destruct (negb _); simpl; lia.
    + replace (String.length text =? 0)%nat with false
        by (destruct text; [contradiction|reflexivity]).
      destruct (parseInputToDate text locale) as [|d]; [simpl; lia|].
      destruct (negb _); [simpl; lia|].
      pose proof (proj2 (emit_shape props (Some (Iso d)))). simpl. lia.
Qed.

(** *** Typing, then Enter *)

Lemma date_eta (d : CalendarDate) :
  mkDate (year d) (month d) (day d - 1 + 1) = d.
Proof. destruct d as [y m dd]; simpl. f_equal. lia. Qed.

Lemma valid_day_in_grid (d : CalendarDate) :
  isValidDate d = true -> 0 <= day d - 1 < getDaysInMonth d.
Proof.
  unfold isValidDate, getDaysInMonth.
  rewrite !andb_true_iff, !Z.leb_le. lia.
Qed.

(** X5.  Typing text that parses to a real day in range highlights that
    day's cell in its month; Enter, pressed with the menu open, then
    delivers exactly that date to [onChange], or nothing when it already is
    the value. *)
Theorem typed_date_then_enter (props : TDateInput) (ds ds' : Downshift)
    (s : State) (changes : Changes) (text : string) (d : CalendarDate) :
  isReadOnly props = false ->
  isDisabled props = false ->
  onChange props = true ->
  changes_type changes = changeInput ->
  changes_inputValue changes = Some text ->
  parseInputToDate text locale = Iso d ->
  isValidDate d = true ->
  getIsDateInRange (Iso d) (minValue props) (maxValue props) = true ->
  isOpen ds' = true ->
  inputValue ds' = Some text ->
  let s' := fst (step props ds s (StateChange changes)) in
  s' = {| calendarDate := d;
          suggestedItems := [d];
          highlightedIndex := HIdx (getDateInMonth d - 1) |}
  /\ itemAt (createCalendarItems (calendarDate s'))
       (Number (highlightedIndex s')) = Some d
  /\ keyDownEmits props ds' s' "Enter"
     = if DateString_eqb (Iso d) (value props) then []
       else [ {| target_id := id props; target_name := name props;
                 target_value := Iso d |} ].
Proof.
  intros Hro Hdis Hon Htype Htext Hparse Hvalid Hin Hopen Hinput s'.
  assert (Hs' : s' = {| calendarDate := d;
                        suggestedItems := [d];
                        highlightedIndex := HIdx (getDateInMonth d - 1) |}).
  { unfold s', step; cbn [fst].
    rewrite (onStateChange_typed _ _ _ _ Htype Htext), Hparse, Hin.
    reflexivity. }
  assert (Hnonblank : isBlankInput (inputValue ds') = false).
  { rewrite Hinput. unfold isBlankInput.
    destruct (String.eqb_spec (trim text) "") as [Hblank|]; [|reflexivity].
    rewrite (parse_blank text Hblank) in Hparse. discriminate. }
  assert (Hshown : menuIsShown props ds' = true).
  { unfold menuIsShown. rewrite Hopen, Hdis, Hro. reflexivity. }
  pose proof (valid_day_in_grid d Hvalid) as Hgrid.
  split; [exact Hs'|]. rewrite Hs'. split.
  - cbn [calendarDate highlightedIndex Number]. unfold getDateInMonth.
    rewrite itemAt_createCalendarItems by assumption.
    rewrite date_eta. reflexivity.
  - unfold keyDownEmits. rewrite onKeyDown_Enter by assumption.
    rewrite Hnonblank. cbn [snd clearSelectionCalled noEffects
                              preventedDownshiftDefault negb andb app].
    rewrite String.eqb_refl. unfold enterDefault. rewrite Hopen.
    cbn [highlightedIndex]. rewrite days_lookup, Hshown.
    cbn [calendarDate andb]. unfold getDateInMonth.
    replace (0 <=? day d - 1) with true by (symmetry; apply Z.leb_le; lia).
    replace (day d - 1 <? getDaysInMonth d) with true
      by (symmetry; apply Z.ltb_lt; lia).
    cbn [andb]. unfold renderDay. cbn [disabled item].
    rewrite date_eta, Hin. cbn [negb].
    unfold reportSelection, handleChange. unfold render; cbn [selectedItem].
    rewrite emit_present by assumption. cbn [orEmptyString].
    destruct (value props) as [|v]; reflexivity.
Qed.

(** X6.  Typing text that is not blank (after [trim], which removes every
    ECMAScript white space, something is left) and parses to no date clears
    the suggestions and the highlight; Enter then neither clears the
    selection nor delivers anything. *)
Theorem typed_garbage_then_enter (props : TDateInput) (ds ds' : Downshift)
    (s : State) (changes : Changes) (text : string) :
  isReadOnly props = false ->
  changes_type changes = changeInput ->
  changes_inputValue changes = Some text ->
  parseInputToDate text locale = Empty ->
  trim text <> ""%string ->
  inputValue ds' = Some text ->
  let s' := fst (step props ds s (StateChange changes)) in
  s' = {| calendarDate := calendarDate s;
          suggestedItems := [];
          highlightedIndex := HNull |}
  /\ step props ds' s' (KeyDown "Enter") = (s', noEffects)
  /\ keyDownEmits props ds' s' "Enter" = [].
Proof.
  intros Hro Htype Htext Hparse Hnonblank Hinput s'.
  assert (Hs' : s' = {| calendarDate := calendarDate s;
                        suggestedItems := [];
                        highlightedIndex := HNull |}).
  { unfold s', step; cbn [fst].
    rewrite (onStateChange_typed _ _ _ _ Htype Htext), Hparse.
    reflexivity. }
  assert (Hb : isBlankInput (inputValue ds') = false).
  { rewrite Hinput. unfold isBlankInput.
    apply String.eqb_neq. assumption. }
  split; [exact Hs'|]. split.
  - unfold step. rewrite onKeyDown_Enter by assumption. rewrite Hb.
    reflexivity.
  - unfold keyDownEmits. rewrite onKeyDown_Enter by assumption. rewrite Hb.
    cbn [snd clearSelectionCalled noEffects app]. unfold enterDefault.
    rewrite Hs'. cbn [highlightedIndex].
    destruct (_ && _); destruct (isOpen ds'); reflexivity.
Qed.

(** *** Arrow keys inside the month *)

(** The handler on an arrow key whose target cell is in the grid. *)
Lemma arrow_inside_month_step (props : TDateInput) (ds : Downshift)
    (s : State) (i : Z) (here : CalendarDay) :
  isReadOnly props = false ->
  highlightedIndex s = HIdx i ->
  itemAt (days (render props ds s)) (Some i) = Some here ->
  (forall next,
      itemAt (days (render props ds s)) (Some (i + 1)) = Some next ->
      step props ds s (KeyDown "ArrowDown")
      = (s, if disabled next then preventDownshiftDefault noEffects
            else noEffects))
  /\ (forall prev,
        itemAt (days (render props ds s)) (Some (i - 1)) = Some prev ->
        step props ds s (KeyDown "ArrowUp")
        = (s, if disabled prev then preventDownshiftDefault noEffects
              else noEffects)).
Proof.
  intros Hro Hh Hhere.
  rewrite days_lookup in Hhere.
  destruct (menuIsShown props ds) eqn:Hshown; cbn [andb] in Hhere;
    [|discriminate].
  destruct (Z.leb_spec 0 i) as [Hge|]; cbn [andb] in Hhere; [|discriminate].
  destruct (Z.ltb_spec i (getDaysInMonth (calendarDate s))) as [Hlt|];
    [|discriminate].
  clear Hhere.
  assert (Hitem : itemAt (createCalendarItems (calendarDate s)) (Some i)
                  = Some (mkDate (year (calendarDate s))
                            (month (calendarDate s)) (i + 1)))
    by (apply itemAt_createCalendarItems; lia).
  split.
  - intros next Hnext. rewrite days_lookup, Hshown in Hnext.
    cbn [andb] in Hnext.
    destruct (Z.leb_spec 0 (i + 1)) as [_|]; [|discriminate].
    destruct (Z.ltb_spec (i + 1) (getDaysInMonth (calendarDate s)))
      as [Hlt'|]; [|discriminate].
    cbn [andb] in Hnext. injection Hnext as <-.
    unfold step. rewrite onKeyDown_ArrowDown by assumption. cbv zeta.
    rewrite Hh. cbn [Number]. rewrite Hitem. unfold getNextDay, momentOf.
    unfold renderDay; cbn [disabled].
    assert (Hnd : nextDay (mkDate (year (calendarDate s))
                             (month (calendarDate s)) (i + 1))
                  = mkDate (year (calendarDate s)) (month (calendarDate s))
                      (i + 1 + 1)).
    { unfold nextDay; cbn [year month day].
      replace (i + 1 <? daysIn (year (calendarDate s))
                          (month (calendarDate s))) with true
        by (symmetry; apply Z.ltb_lt; unfold getDaysInMonth in Hlt'; lia).
      reflexivity. }
    rewrite Hnd.
    destruct (getIsDateInRange _ _ _); cbn [negb]; [|reflexivity].
    unfold numSucc, numGe. rewrite length_createCalendarItems.
    replace (getDaysInMonth (calendarDate s) <=? i + 1) with false
      by (symmetry; apply Z.leb_gt; lia).
    reflexivity.
  - intros prev Hprev. rewrite days_lookup, Hshown in Hprev.
    cbn [andb] in Hprev.
    destruct (Z.leb_spec 0 (i - 1)) as [Hge'|]; [|discriminate].
    destruct (Z.ltb_spec (i - 1) (getDaysInMonth (calendarDate s)))
      as [_|]; [|discriminate].
    cbn [andb] in Hprev. injection Hprev as <-.
    unfold step. rewrite onKeyDown_ArrowUp by assumption. cbv zeta.
    rewrite Hh. cbn [Number]. rewrite Hitem.
    unfold getPreviousDay, momentOf.
    unfold renderDay; cbn [disabled].
    assert (Hpd : previousDay (mkDate (year (calendarDate s))
                                 (month (calendarDate s)) (i + 1))
                  = mkDate (year (calendarDate s)) (month (calendarDate s))
                      (i - 1 + 1)).
    { unfold previousDay; cbn [year month day].
      replace (1 <? i + 1) with true by (symmetry; apply Z.ltb_lt; lia).
      f_equal. lia. }
    rewrite Hpd.
    destruct (getIsDateInRange _ _ _); cbn [negb]; [|reflexivity].
    unfold numLe.
    replace (i <=? 0) with false by (symmetry; apply Z.leb_gt; lia).
    reflexivity.
Qed.

(** X7.  With a cell of the grid highlighted, an arrow key whose target
    cell is in the same grid never changes the state, and the event is
    marked for Downshift exactly when the target cell is disabled:
    [preventedDownshiftDefault] is the [disabled] flag of that cell.
    Nothing is delivered, cleared or focused. *)
Theorem arrow_inside_month (props : TDateInput) (ds : Downshift) (s : State)
    (i : Z) (here : CalendarDay) :
  isReadOnly props = false ->
  highlightedIndex s = HIdx i ->
  itemAt (days (render props ds s)) (Some i) = Some here ->
  (forall next,
      itemAt (days (render props ds s)) (Some (i + 1)) = Some next ->
      step props ds s (KeyDown "ArrowDown")
      = (s, {| emitted := [];
               preventedDownshiftDefault := disabled next;
               clearSelectionCalled := false;
               inputFocused := false |}))
  /\ (forall prev,
        itemAt (days (render props ds s)) (Some (i - 1)) = Some prev ->
        step props ds s (KeyDown "ArrowUp")
        = (s, {| emitted := [];
                 preventedDownshiftDefault := disabled prev;
                 clearSelectionCalled := false;
                 inputFocused := false |})).
Proof.
  intros Hro Hh Hhere.
  destruct (arrow_inside_month_step props ds s i here Hro Hh Hhere)
    as [Hdown Hup].
  split.
  - intros next Hnext. rewrite (Hdown next Hnext).
    destruct (disabled next); reflexivity.
  - intros prev Hprev. rewrite (Hup prev Hprev).
    destruct (disabled prev); reflexivity.
Qed.

(** X8.  Whatever the key, the key handler leaves the suggestions alone,
    delivers nothing itself and does not focus the input; it leaves the
    state as it was or, on an arrow key, jumps one month, marking the
    event.  The displayed month moves by at most one. *)
Theorem key_press_frame (props : TDateInput) (ds : Downshift) (s : State)
    (key : string) :
  let s' := fst (step props ds s (KeyDown key)) in
  let fx := snd (step props ds s (KeyDown key)) in
  suggestedItems s' = suggestedItems s
  /\ emitted fx = []
  /\ inputFocused fx = false
  /\ (s' = s
      \/ (key = "ArrowDown"%string /\ s' = jumpMonth s 1 0
          /\ preventedDownshiftDefault fx = true)
      \/ (key = "ArrowUp"%string
          /\ preventedDownshiftDefault fx = true
          /\ exists n, s' = jumpMonth s (-1) n))
  /\ Z.abs (monthIndex (calendarDate s') - monthIndex (calendarDate s)) <= 1.
Proof.
  cbv zeta. unfold step, onKeyDown.
  destruct (isReadOnly props).
  { cbn. repeat split; auto. lia. }
  destruct ((key =? "Enter")%string && isBlankInput (inputValue ds));
    destruct (String.eqb_spec key "ArrowDown") as [Hdown|_];
    try destruct (String.eqb_spec key "ArrowUp") as [Hup|_];
    repeat match goal with
           | |- context [if ?c then _ else _] => destruct c
           end;
    cbn [fst snd jumpMonth setHighlightedIndex setCalendarDate calendarDate
         suggestedItems emitted inputFocused preventDownshiftDefault
         callClearSelection noEffects preventedDownshiftDefault];
    rewrite ?monthIndex_changeMonth;
    repeat split; auto; try lia;
    try (right; left; repeat split; assumption);
    try (right; right; repeat split; try assumption; eexists; reflexivity).
Qed.

(** *** Sequences of events *)

Lemma step_suggestions (props : TDateInput) (ds : Downshift) (s : State)
    (ev : Event) :
  (List.length (suggestedItems s) <= 1)%nat ->
  (List.length (suggestedItems (fst (step props ds s ev))) <= 1)%nat.
Proof.
  intros Hs. destruct ev as [changes|key|targetValue|date| | | | | ];
    cbn [step fst]; try exact Hs.
  - unfold onStateChange.
    destruct (changes_inputValue changes) as [text|].
    + destruct (isChangeInput (changes_type changes)); [|simpl; lia].
      destruct (parseInputToDate text locale) as [|d]; [simpl; lia|].
      destruct (getIsDateInRange (Iso d) (minValue props) (maxValue props));
        simpl; lia.
    + destruct (changes_highlightedIndex changes); exact Hs.
  - unfold onKeyDown.
    repeat match goal with
           | |- context [if ?c then _ else _] => destruct c
           end; exact Hs.
Qed.

Lemma run_suggestions (props : TDateInput)
    (events : list (Downshift * Event)) (s : State) :
  (List.length (suggestedItems s) <= 1)%nat ->
  (List.length (suggestedItems (run props s events)) <= 1)%nat.
Proof.
  revert s. induction events as [|[ds ev] rest IH]; intros s Hs;
    [exact Hs|].
  cbn [run]. apply IH. apply step_suggestions. exact Hs.
Qed.

Lemma run_valid (props : TDateInput) (events : list (Downshift * Event))
    (s : State) :
  isValidDate getToday = true ->
  (forall text d,
      parseInputToDate text locale = Iso d -> isValidDate d = true) ->
  isValidDate (calendarDate s) = true ->
  isValidDate (calendarDate (run props s events)) = true.
Proof.
  intros Htoday Hparse. revert s.
  induction events as [|[ds ev] rest IH]; intros s Hs; [exact Hs|].
  cbn [run]. apply IH. apply step_keeps_valid; assumption.
Qed.

(** X9.  After any sequence of events from mounting, at most one suggestion
    is held; so the "today" button, which adds the number of suggestions to
    the index, highlights today's index or the one after it. *)
Theorem suggestions_at_most_one (props : TDateInput) (ds : Downshift)
    (events : list (Downshift * Event)) :
  let s := run props (initialState props) events in
  (List.length (suggestedItems s) <= 1)%nat
  /\ (highlightedIndex (fst (step props ds s TodayClick))
      = HIdx (getDateInMonth getToday - 1)
      \/ highlightedIndex (fst (step props ds s TodayClick))
         = HIdx (getDateInMonth getToday)).
Proof.
  cbv zeta.
  pose proof (run_suggestions props events (initialState props)
                (Nat.le_0_l 1)) as Hlen.
  split; [exact Hlen|].
  cbn [step]. rewrite showToday_highlight.
  destruct (suggestedItems (run props (initialState props) events))
    as [|d [|d' l]].
  - left. reflexivity.
  - right. f_equal. cbn [List.length]. lia.
  - cbn [List.length] in Hlen. lia.
Qed.

(** X10.  When today, the value and every date the parser answers are real
    calendar days, the displayed date is a real calendar day after any
    sequence of events from mounting, and its grid has 28 to 31 cells. *)
Theorem displayed_date_stays_real (props : TDateInput)
    (events : list (Downshift * Event)) :
  isValidDate getToday = true ->
  (forall d, value props = Iso d -> isValidDate d = true) ->
  (forall text d,
      parseInputToDate text locale = Iso d -> isValidDate d = true) ->
  let s := run props (initialState props) events in
  isValidDate (calendarDate s) = true
  /\ 28 <= Z.of_nat (List.length (createCalendarItems (calendarDate s))) <= 31.
Proof.
  intros Htoday Hvalue Hparse s. split.
  - apply run_valid; try assumption.
    apply initialState_valid; assumption.
  - rewrite length_createCalendarItems. apply daysIn_bounds.
Qed.

(** *** Header buttons, composed *)

Lemma changeMonth_add (d : CalendarDate) (a b : Z) :
  day d <= 28 ->
  changeMonth (changeMonth d a) b = changeMonth d (a + b).
Proof.
  intros Hday. unfold changeMonth at 1.
  rewrite monthIndex_changeMonth. cbv zeta.
  unfold changeMonth at 2. cbv zeta.
  replace (monthIndex d + a + b) with (monthIndex d + (a + b)) by lia.
  f_equal. cbn [day changeMonth].
  pose proof (daysIn_bounds ((monthIndex d + a) / 12)
                ((monthIndex d + a) mod 12 + 1)).
  pose proof (daysIn_bounds ((monthIndex d + (a + b)) / 12)
                ((monthIndex d + (a + b)) mod 12 + 1)).
  lia.
Qed.

Lemma changeMonth_zero (d : CalendarDate) :
  isValidDate d = true -> changeMonth d 0 = d.
Proof.
  unfold isValidDate. rewrite !andb_true_iff, !Z.leb_le.
  intros [[[Hm1 Hm12] Hd1] Hd]. destruct d as [y m dd]; cbn in *.
  unfold changeMonth, monthIndex; cbn.
  replace (y * 12 + (m - 1) + 0) with ((m - 1) + y * 12) by lia.
  rewrite Z.div_add, Z.mod_add by lia.
  rewrite Z.div_small, Z.mod_small by lia.
  replace (0 + y) with y by lia. replace (m - 1 + 1) with m by lia.
  f_equal. lia.
Qed.

Lemma jumpMonth_jumpMonth (s : State) (a b h h' : Z) :
  day (calendarDate s) <= 28 ->
  jumpMonth (jumpMonth s a h) b h' = jumpMonth s (a + b) h'.
Proof.
  intros Hday. unfold jumpMonth, setHighlightedIndex, setCalendarDate.
  cbn [calendarDate suggestedItems highlightedIndex].
  rewrite changeMonth_add by assumption. reflexivity.
Qed.

(** X11.  For a displayed date that is a real day up to the 28th, the
    header buttons compose: a button and its opposite bring back the
    displayed date, with index 0 highlighted, and twelve clicks on "next
    month" are one click on "next year". *)
Theorem header_buttons_compose (props : TDateInput) (ds : Downshift)
    (s : State) :
  isValidDate (calendarDate s) = true ->
  day (calendarDate s) <= 28 ->
  run props s [(ds, PrevMonthClick); (ds, NextMonthClick)]
  = setHighlightedIndex s (HIdx 0)
  /\ run props s [(ds, NextMonthClick); (ds, PrevMonthClick)]
     = setHighlightedIndex s (HIdx 0)
  /\ run props s [(ds, PrevYearClick); (ds, NextYearClick)]
     = setHighlightedIndex s (HIdx 0)
  /\ run props s [(ds, NextYearClick); (ds, PrevYearClick)]
     = setHighlightedIndex s (HIdx 0)
  /\ run props s (repeat (ds, NextMonthClick) 12)
     = run props s [(ds, NextYearClick)]
  /\ run props s (repeat (ds, PrevMonthClick) 12)
     = run props s [(ds, PrevYearClick)].
Proof.
  intros Hvalid Hday.
  assert (Hstay : jumpMonth s 0 0 = setHighlightedIndex s (HIdx 0)).
  { unfold jumpMonth, setHighlightedIndex, setCalendarDate.
    cbn [calendarDate suggestedItems highlightedIndex].
    rewrite changeMonth_zero by assumption. reflexivity. }
  cbn [run repeat step fst].
  repeat rewrite (jumpMonth_jumpMonth s) by assumption.
  repeat split; try reflexivity; exact Hstay.
Qed.

(** *** The "today" button and the mouse *)

(** X12.  With no suggestion held and today a real day, the "today" button
    displays today's month, focuses the input and highlights today's cell:
    a rendered cell is highlighted exactly when it is today's.  A second
    click changes nothing. *)
Theorem today_button_highlights_today (props : TDateInput) (ds : Downshift)
    (s : State) :
  suggestedItems s = [] ->
  isValidDate getToday = true ->
  let s' := fst (step props ds s TodayClick) in
  calendarDate s' = getToday
  /\ inputFocused (snd (step props ds s TodayClick)) = true
  /\ itemAt (createCalendarItems (calendarDate s'))
       (Number (highlightedIndex s')) = Some getToday
  /\ Forall (fun cell => isHighlighted cell = isToday cell)
       (days (render props ds s'))
  /\ step props ds s' TodayClick = step props ds s TodayClick.
Proof.
  intros Hnone Hvalid s'.
  assert (Hs' : s' = {| calendarDate := getToday;
                        suggestedItems := [];
                        highlightedIndex :=
                          HIdx (getDateInMonth getToday - 1) |}).
  { unfold s'. cbn [step]. rewrite showToday_without_suggestions by assumption.
    reflexivity. }
  pose proof (valid_day_in_grid getToday Hvalid) as Hgrid.
  rewrite Hs'. cbn [calendarDate highlightedIndex Number].
  split; [reflexivity|]. split; [reflexivity|]. split; [|split].
  - unfold getDateInMonth. rewrite itemAt_createCalendarItems by assumption.
    rewrite date_eta. reflexivity.
  - unfold render; cbn [days calendarDate].
    destruct (menuIsShown props ds); [|constructor].
    apply Forall_forall. intros cell Hcell.
    apply in_map_iff in Hcell. destruct Hcell as [[index it] [<- Hin]].
    unfold renderDay; cbn [isHighlighted isToday highlightedIndex].
    apply in_combine_l in Hin as Hidx. apply in_seq in Hidx.
    apply In_nth_error in Hin. destruct Hin as [n Hn].
    rewrite nth_error_indexed_from in Hn. cbn [Nat.add] in Hn.
    destruct (nth_error (createCalendarItems getToday) n) as [x|] eqn:Hx;
      [|discriminate].
    cbn [option_map] in Hn. injection Hn as <- <-.
    assert (Hlen : (n < List.length (createCalendarItems getToday))%nat)
      by (apply nth_error_Some; congruence).
    pose proof (length_createCalendarItems getToday) as Hdim.
    pose proof (itemAt_createCalendarItems getToday (Z.of_nat n)
                  ltac:(lia)) as Hitem.
    unfold itemAt in Hitem.
    replace (Z.of_nat n <? 0) with false in Hitem
      by (symmetry; apply Z.ltb_ge; lia).
    rewrite Nat2Z.id, Hx in Hitem. injection Hitem as ->.
    unfold isIndex, isSameDay, CalendarDate_eqb, getDateInMonth.
    cbn [year month day]. rewrite !Z.eqb_refl. cbn [andb].
    destruct (Z.eqb_spec (Z.of_nat n) (day getToday - 1));
      destruct (Z.eqb_spec (day getToday) (Z.of_nat n + 1));
      try reflexivity; lia.
  - cbn [step]. unfold showToday, setHighlightedIndex, setCalendarDate.
    cbn [calendarDate suggestedItems highlightedIndex].
    rewrite Hnone. reflexivity.
Qed.

Lemma setHighlightedIndex_same (s : State) :
  setHighlightedIndex s (highlightedIndex s) = s.
Proof. destruct s; reflexivity. Qed.

Lemma setDownshiftHighlightedIndex_sets (props : TDateInput) (s : State)
    (h : Highlight) :
  setDownshiftHighlightedIndex props s h = setHighlightedIndex s h.
Proof.
  unfold setDownshiftHighlightedIndex.
  destruct (sameHighlight h (highlightedIndex s)) eqn:Hsame;
    [|reflexivity].
  assert (Heq : highlightedIndex s = h).
  { destruct h as [| |i], (highlightedIndex s) as [| |j];
      try discriminate; try reflexivity.
    simpl in Hsame. apply Z.eqb_eq in Hsame. subst. reflexivity. }
  rewrite <- Heq. symmetry. apply setHighlightedIndex_same.
Qed.

(** X13.  Moving the mouse out of a day cell, or into the input while the
    menu is open, leaves the displayed date and the suggestions and clears
    the highlight, so that no cell of the grid is highlighted; moving into
    the input while the menu is closed changes nothing. *)
Theorem mouse_clears_highlight (props : TDateInput) (ds ds' : Downshift)
    (s : State) :
  onMouseOut props s = setHighlightedIndex s HNull
  /\ onMouseEnter props ds s
     = (if isOpen ds then setHighlightedIndex s HNull else s)
  /\ Forall (fun cell => isHighlighted cell = false)
       (days (render props ds' (onMouseOut props s))).
Proof.
  unfold onMouseOut, onMouseEnter.
  rewrite setDownshiftHighlightedIndex_sets.
  split; [reflexivity|]. split; [reflexivity|].
  unfold render; cbn [days].
  destruct (menuIsShown props ds'); [|constructor].
  apply Forall_forall. intros cell Hcell.
  apply in_map_iff in Hcell. destruct Hcell as [[index it] [<- _]].
  reflexivity.
Qed.

(** X14.  [DateInput.isEmpty] tells whether nothing is selected: the input
    shows a selection exactly when the value is not empty, mounting
    highlights a cell exactly when the value is not empty, and
    [clearSelection] reaches [onChange] only when the value is not empty,
    with a value that is empty. *)
Theorem isEmpty_is_no_selection (props : TDateInput) (ds : Downshift)
    (s : State) :
  hasSelection props ds s = negb (isEmpty (Some (value props)))
  /\ sameHighlight (highlightedIndex (initialState props)) HNull
     = isEmpty (Some (value props))
  /\ clearSelection props ds s
     = (if isEmpty (Some (value props)) then [] else emit props None)
  /\ Forall (fun e => isEmpty (Some (target_value e)) = true)
       (clearSelection props ds s)
  /\ isEmpty None = false.
Proof.
  unfold hasSelection, clearSelection, reportSelection, handleChange,
    initialState, render; cbn [selectedItem highlightedIndex].
  destruct (value props) as [|d]; cbn; repeat split; try constructor.
  unfold emit. destruct (onChange props); repeat constructor.
Qed.

(** *** Across the edge of a month and back *)

Lemma previousDay_of_next_month (d : CalendarDate) :
  isValidDate d = true ->
  previousDay (firstDayOfMonth (changeMonth d 1)) = lastDayOfMonth d.
Proof.
  unfold isValidDate. rewrite !andb_true_iff, !Z.leb_le.
  intros [[[Hm1 Hm12] _] _].
  unfold previousDay, firstDayOfMonth, lastDayOfMonth, changeMonth,
    monthIndex, getDaysInMonth; cbn [year month day].
  change (1 <? 1) with false. cbv iota.
  destruct (Z.eq_dec (month d) 12) as [H12|Hne].
  - replace (year d * 12 + (month d - 1) + 1) with (0 + (year d + 1) * 12)
      by lia.
    rewrite Z.div_add, Z.mod_add by lia.
    change (0 / 12) with 0. change (0 mod 12) with 0.
    change (1 <? 0 + 1) with false. cbv iota.
    rewrite H12. f_equal; lia.
  - replace (year d * 12 + (month d - 1) + 1) with (month d + year d * 12)
      by lia.
    rewrite Z.div_add, Z.mod_add by lia.
    rewrite Z.div_small, Z.mod_small by lia.
    replace (1 <? month d + 1) with true by (symmetry; apply Z.ltb_lt; lia).
    replace (month d + 1 - 1) with (month d) by lia.
    f_equal; lia.
Qed.

Lemma onKeyDown_ArrowDown_last (props : TDateInput) (ds : Downshift)
    (s : State) :
  isReadOnly props = false ->
  highlightedIndex s = HIdx (getDaysInMonth (calendarDate s) - 1) ->
  getIsDateInRange (Iso (nextDay (lastDayOfMonth (calendarDate s))))
    (minValue props) (maxValue props) = true ->
  onKeyDown props ds s "ArrowDown"
  = (jumpMonth s 1 0, preventDownshiftDefault noEffects).
Proof.
  intros Hro Hlast Hin.
  rewrite onKeyDown_ArrowDown by assumption. cbv zeta.
  rewrite Hlast. cbn [Number]. unfold getNextDay.
  rewrite itemAt_last. unfold momentOf. rewrite Hin. cbn [negb].
  unfold numSucc, numGe. rewrite length_createCalendarItems.
  replace (getDaysInMonth (calendarDate s) <=?
           getDaysInMonth (calendarDate s) - 1 + 1) with true
    by (symmetry; apply Z.leb_le; lia).
  reflexivity.
Qed.

Lemma onKeyDown_ArrowUp_first (props : TDateInput) (ds : Downshift)
    (s : State) :
  isReadOnly props = false ->
  highlightedIndex s = HIdx 0 ->
  getIsDateInRange (Iso (previousDay (firstDayOfMonth (calendarDate s))))
    (minValue props) (maxValue props) = true ->
  onKeyDown props ds s "ArrowUp"
  = (jumpMonth s (-1)
       (getDaysInMonth (previousDay (firstDayOfMonth (calendarDate s))) - 1),
     preventDownshiftDefault noEffects).
Proof.
  intros Hro Hfirst Hin.
  rewrite onKeyDown_ArrowUp by assumption. cbv zeta.
  rewrite Hfirst. cbn [Number]. unfold getPreviousDay.
  rewrite itemAt_first. unfold momentOf. rewrite Hin. cbn [negb].
  unfold numLe. change (0 <=? 0) with true. reflexivity.
Qed.

(** X15.  From the last day of a month, ArrowDown and then ArrowUp bring
    the state back: for a displayed date that is a real day up to the 28th,
    with the last day of its month and the day after both in range, the
    month is shown again with its last day highlighted. *)
Theorem arrow_down_then_up (props : TDateInput) (ds ds' : Downshift)
    (s : State) :
  isReadOnly props = false ->
  isValidDate (calendarDate s) = true ->
  day (calendarDate s) <= 28 ->
  highlightedIndex s = HIdx (getDaysInMonth (calendarDate s) - 1) ->
  getIsDateInRange (Iso (lastDayOfMonth (calendarDate s)))
    (minValue props) (maxValue props) = true ->
  getIsDateInRange (Iso (nextDay (lastDayOfMonth (calendarDate s))))
    (minValue props) (maxValue props) = true ->
  run props s [(ds, KeyDown "ArrowDown"); (ds', KeyDown "ArrowUp")] = s.
Proof.
  intros Hro Hvalid Hday Hlast HinLast HinNext.
  cbn [run step].
  rewrite (onKeyDown_ArrowDown_last props ds s Hro Hlast HinNext).
  cbn [fst].
  assert (Hcd : calendarDate (jumpMonth s 1 0)
                = changeMonth (calendarDate s) 1) by reflexivity.
  rewrite (onKeyDown_ArrowUp_first props ds' (jumpMonth s 1 0) Hro eq_refl)
    by (rewrite Hcd, previousDay_of_next_month by assumption; exact HinLast).
  cbn [fst]. rewrite Hcd, previousDay_of_next_month by assumption.
  rewrite jumpMonth_jumpMonth by assumption. change (1 + -1) with 0.
  unfold jumpMonth, setHighlightedIndex, setCalendarDate.
  cbn [calendarDate suggestedItems highlightedIndex].
  rewrite changeMonth_zero by assumption.
  replace (getDaysInMonth (lastDayOfMonth (calendarDate s)))
    with (getDaysInMonth (calendarDate s)) by reflexivity.
  rewrite <- Hlast. destruct s; reflexivity.
Qed.

(** *** Mounting *)

Lemma rendered_cells (props : TDateInput) (ds : Downshift) (s : State) :
  Forall (fun cell =>
            exists n : nat,
              item cell
              = mkDate (year (calendarDate s)) (month (calendarDate s))
                  (Z.of_nat n + 1)
              /\ isHighlighted cell
                 = isIndex (Z.of_nat n) (highlightedIndex s)
              /\ isSelected cell = isSameDay (item cell) (value props))
         (days (render props ds s)).
Proof.
  unfold render; cbn [days].
  destruct (menuIsShown props ds); [|constructor].
  apply Forall_forall. intros cell Hcell.
  apply in_map_iff in Hcell. destruct Hcell as [[index it] [<- Hin]].
  unfold renderDay; cbn [isHighlighted isSelected item].
  apply In_nth_error in Hin. destruct Hin as [n Hn].
  rewrite nth_error_indexed_from in Hn. cbn [Nat.add] in Hn.
  destruct (nth_error (createCalendarItems (calendarDate s)) n) as [x|] eqn:Hx;
    [|discriminate].
  cbn [option_map] in Hn. injection Hn as <- <-.
  assert (Hlen : (n < List.length (createCalendarItems (calendarDate s)))%nat)
    by (apply nth_error_Some; congruence).
  pose proof (length_createCalendarItems (calendarDate s)) as Hdim.
  pose proof (itemAt_createCalendarItems (calendarDate s) (Z.of_nat n)
                ltac:(lia)) as Hitem.
  unfold itemAt in Hitem.
  replace (Z.of_nat n <? 0) with false in Hitem
    by (symmetry; apply Z.ltb_ge; lia).
  rewrite Nat2Z.id, Hx in Hitem. injection Hitem as ->.
  exists n. repeat split.
Qed.

(** X16.  Mounted, the input holds no suggestion and displays the month
    of its value, or today's month when the value is empty.  In the grid
    the highlighted cell is exactly the selected cell, and a cell is
    selected only when its day is the value: with the empty value no cell
    is highlighted or selected. *)
Theorem mounting (props : TDateInput) (ds : Downshift) :
  let s := initialState props in
  suggestedItems s = []
  /\ calendarDate s
     = match value props with Iso d => d | Empty => getToday end
  /\ Forall (fun cell =>
               isHighlighted cell = isSelected cell
               /\ (isSelected cell = true -> value props = Iso (item cell)))
       (days (render props ds s)).
Proof.
  cbv zeta. split; [reflexivity|]. split; [reflexivity|].
  eapply Forall_impl; [|apply rendered_cells].
  intros cell (n & Hitem & Hhigh & Hsel).
  rewrite Hhigh, Hsel, Hitem. unfold initialState; cbn.
  destruct (value props) as [|d]; cbn; [split; [reflexivity|discriminate]|].
  unfold CalendarDate_eqb; cbn [year month day].
  rewrite !Z.eqb_refl. cbn [andb]. split.
  - destruct (Z.eqb_spec (Z.of_nat n) (getDateInMonth d - 1));
      destruct (Z.eqb_spec (Z.of_nat n + 1) (day d));
      try reflexivity; unfold getDateInMonth in *; lia.
  - intros Heq. apply Z.eqb_eq in Heq. rewrite Heq.
    destruct d; reflexivity.
Qed.

End Component.
(** ** The component on concrete inputs

    The parser is [parseIso], the locale "en" and today 2024-06-10. *)

Example type_in_range :
  step "en" sampleToday parseIso (sampleProps Empty None None) (openMenu "")
    (initialState sampleToday (sampleProps Empty None None))
    (StateChange (typeChanges "2024-03-15" None))
  = (sampleState (mkDate 2024 3 15) [mkDate 2024 3 15] (HIdx 14), noEffects).
Proof. reflexivity. Qed.

Example type_out_of_range_from_empty :
  step "en" sampleToday parseIso
    (sampleProps Empty (Some (mkDate 2024 3 20)) None) (openMenu "")
    (initialState sampleToday
       (sampleProps Empty (Some (mkDate 2024 3 20)) None))
    (StateChange (typeChanges "2024-03-15" None))
  = (sampleState (mkDate 2024 3 15) [mkDate 2024 3 15] HNull, noEffects)
  /\ keyDownEmits sampleToday
       (sampleProps Empty (Some (mkDate 2024 3 20)) None)
       (openMenu "2024-03-15")
       (sampleState (mkDate 2024 3 15) [mkDate 2024 3 15] HNull) "Enter"
     = [].
Proof. split; reflexivity. Qed.

Example blank_texts :
  trim noBreakSpace = ""%string
  /\ trim ideographicSpace = ""%string
  /\ trim (" " ++ noBreakSpace ++ ideographicSpace) = ""%string
  /\ trim (noBreakSpace ++ "2024-03-15" ++ " ") = "2024-03-15"%string
  /\ isBlankInput (Some noBreakSpace) = true
  /\ isBlankInput (Some (String (ascii_of_nat 160) EmptyString)) = true
  /\ isBlankInput (Some "x"%string) = false
  /\ isBlankInput None = false.
Proof. repeat apply conj; reflexivity. Qed.

Example enter_on_no_break_space :
  step "en" sampleToday parseIso propsMay (openMenu noBreakSpace)
    (sampleState (mkDate 2024 5 1) [] HNull) (KeyDown "Enter")
  = (sampleState (mkDate 2024 5 1) [] HNull, callClearSelection noEffects)
  /\ keyDownEmits sampleToday propsMay (openMenu noBreakSpace)
       (sampleState (mkDate 2024 5 1) [] HNull) "Enter"
     = [ {| target_id := Some "date"%string;
            target_name := Some "date"%string;
            target_value := Empty |} ].
Proof. split; reflexivity. Qed.

Example enter_commits_highlighted_day :
  keyDownEmits sampleToday (sampleProps Empty None None)
    (openMenu "2024-03-15")
    (sampleState (mkDate 2024 3 15) [mkDate 2024 3 15] (HIdx 14)) "Enter"
  = [ {| target_id := Some "date"%string;
         target_name := Some "date"%string;
         target_value := Iso (mkDate 2024 3 15) |} ].
Proof. reflexivity. Qed.

Example blur_with_invalid_text_keeps_value :
  committedValue (Iso (mkDate 2024 5 1))
    (emitted
       (snd (step "en" sampleToday parseIso
               (sampleProps (Iso (mkDate 2024 5 1)) None None)
               (openMenu "2024-05-0x")
               (initialState sampleToday
                  (sampleProps (Iso (mkDate 2024 5 1)) None None))
               (InputBlur (Some "2024-05-0x"%string)))))
  = Iso (mkDate 2024 5 1).
Proof. reflexivity. Qed.

Lemma arrowDown_on_last_day_witness :
  isReadOnly (sampleProps Empty None (Some (mkDate 2024 2 10))) = false
  /\ highlightedIndex (sampleState (mkDate 2024 1 15) [] (HIdx 30))
     = HIdx (getDaysInMonth
               (calendarDate (sampleState (mkDate 2024 1 15) [] (HIdx 30)))
             - 1)
  /\ step "en" sampleToday parseIso
       (sampleProps Empty None (Some (mkDate 2024 2 10))) (openMenu "")
       (sampleState (mkDate 2024 1 15) [] (HIdx 30)) (KeyDown "ArrowDown")
     = (sampleState (mkDate 2024 2 15) [] (HIdx 0),
        {| emitted := [];
           preventedDownshiftDefault := true;
           clearSelectionCalled := false;
           inputFocused := false |})
  /\ step "en" sampleToday parseIso
       (sampleProps Empty None (Some (mkDate 2024 1 31))) (openMenu "")
       (sampleState (mkDate 2024 1 15) [] (HIdx 30)) (KeyDown "ArrowDown")
     = (sampleState (mkDate 2024 1 15) [] (HIdx 30),
        {| emitted := [];
           preventedDownshiftDefault := true;
           clearSelectionCalled := false;
           inputFocused := false |}).
Proof.
  split; [reflexivity|]. split; [reflexivity|]. split.
  - exact (proj1 (arrowDown_on_last_day "en" sampleToday parseIso
                    (sampleProps Empty None (Some (mkDate 2024 2 10)))
                    (openMenu "")
                    (sampleState (mkDate 2024 1 15) [] (HIdx 30))
                    eq_refl eq_refl)).
  - exact (proj1 (arrowDown_on_last_day "en" sampleToday parseIso
                    (sampleProps Empty None (Some (mkDate 2024 1 31)))
                    (openMenu "")
                    (sampleState (mkDate 2024 1 15) [] (HIdx 30))
                    eq_refl eq_refl)).
Defined.

Lemma arrowUp_on_first_day_witness :
  isReadOnly (sampleProps Empty None None) = false
  /\ isValidDate (calendarDate (sampleState (mkDate 2024 3 10) [] (HIdx 0)))
     = true
  /\ highlightedIndex (sampleState (mkDate 2024 3 10) [] (HIdx 0)) = HIdx 0
  /\ step "en" sampleToday parseIso (sampleProps Empty None None)
       (openMenu "") (sampleState (mkDate 2024 3 10) [] (HIdx 0))
       (KeyDown "ArrowUp")
     = (sampleState (mkDate 2024 2 10) [] (HIdx 28),
        {| emitted := [];
           preventedDownshiftDefault := true;
           clearSelectionCalled := false;
           inputFocused := false |})
  /\ step "en" sampleToday parseIso
       (sampleProps Empty (Some (mkDate 2024 3 1)) None)
       (openMenu "") (sampleState (mkDate 2024 3 10) [] (HIdx 0))
       (KeyDown "ArrowUp")
     = (sampleState (mkDate 2024 3 10) [] (HIdx 0),
        {| emitted := [];
           preventedDownshiftDefault := true;
           clearSelectionCalled := false;
           inputFocused := false |}).
Proof.
  split; [reflexivity|]. split; [reflexivity|]. split; [reflexivity|]. split.
  - exact (proj1 (arrowUp_on_first_day "en" sampleToday parseIso
                    (sampleProps Empty None None) (openMenu "")
                    (sampleState (mkDate 2024 3 10) [] (HIdx 0))
                    eq_refl eq_refl eq_refl)).
  - exact (proj1 (arrowUp_on_first_day "en" sampleToday parseIso
                    (sampleProps Empty (Some (mkDate 2024 3 1)) None)
                    (openMenu "")
                    (sampleState (mkDate 2024 3 10) [] (HIdx 0))
                    eq_refl eq_refl eq_refl)).
Defined.

Lemma arrows_on_null_highlight_witness :
  isReadOnly (sampleProps Empty None None) = false
  /\ isValidDate (calendarDate (sampleState (mkDate 2024 3 10) [] HNull))
     = true
  /\ highlightedIndex (sampleState (mkDate 2024 3 10) [] HNull) = HNull
  /\ step "en" sampleToday parseIso (sampleProps Empty None None)
       (openMenu "") (sampleState (mkDate 2024 3 10) [] HNull)
       (KeyDown "ArrowUp")
     = (sampleState (mkDate 2024 2 10) [] (HIdx 28),
        {| emitted := [];
           preventedDownshiftDefault := true;
           clearSelectionCalled := false;
           inputFocused := false |})
  /\ step "en" sampleToday parseIso
       (sampleProps Empty None (Some (mkDate 2024 3 1)))
       (openMenu "") (sampleState (mkDate 2024 3 10) [] HNull)
       (KeyDown "ArrowDown")
     = (sampleState (mkDate 2024 3 10) [] HNull,
        {| emitted := [];
           preventedDownshiftDefault := true;
           clearSelectionCalled := false;
           inputFocused := false |}).
Proof.
  split; [reflexivity|]. split; [reflexivity|]. split; [reflexivity|]. split.
  - exact (proj1 (arrows_on_null_highlight "en" sampleToday parseIso
                    (sampleProps Empty None None) (openMenu "")
                    (sampleState (mkDate 2024 3 10) [] HNull)
                    eq_refl eq_refl eq_refl)).
  - exact (proj1 (proj2 (arrows_on_null_highlight "en" sampleToday parseIso
                    (sampleProps Empty None (Some (mkDate 2024 3 1)))
                    (openMenu "")
                    (sampleState (mkDate 2024 3 10) [] HNull)
                    eq_refl eq_refl eq_refl))).
Defined.

Lemma readOnly_keyDown_is_inert_witness :
  isReadOnly sampleReadOnly = true
  /\ step "en" sampleToday parseIso sampleReadOnly (openMenu "")
       (sampleState (mkDate 2024 5 1) [] (HIdx 30)) (KeyDown "ArrowDown")
     = (sampleState (mkDate 2024 5 1) [] (HIdx 30),
        preventDownshiftDefault noEffects)
  /\ keyDownEmits sampleToday sampleReadOnly (openMenu "")
       (sampleState (mkDate 2024 5 1) [] (HIdx 30)) "Enter" = [].
Proof.
  split; [reflexivity|]. split.
  - exact (proj1 (readOnly_keyDown_is_inert "en" sampleToday parseIso
                    sampleReadOnly (openMenu "")
                    (sampleState (mkDate 2024 5 1) [] (HIdx 30))
                    "ArrowDown" eq_refl)).
  - exact (proj2 (proj2 (readOnly_keyDown_is_inert "en" sampleToday parseIso
                    sampleReadOnly (openMenu "")
                    (sampleState (mkDate 2024 5 1) [] (HIdx 30))
                    "Enter" eq_refl))).
Defined.

Lemma missing_onChange_only_warns_witness :
  isReadOnly (sampleProps (Iso (mkDate 2024 5 1)) None None) = false
  /\ warnings
       (withOnChange false (sampleProps (Iso (mkDate 2024 5 1)) None None))
     = [warningMessage]
  /\ emitted
       (snd (step "en" sampleToday parseIso
               (withOnChange false
                  (sampleProps (Iso (mkDate 2024 5 1)) None None))
               (openMenu "2024-06-01")
               (sampleState (mkDate 2024 5 1) [] (HIdx 0))
               (InputBlur (Some "2024-06-01"%string))))
     = [].
Proof.
  split; [reflexivity|].
  destruct (missing_onChange_only_warns "en" sampleToday parseIso
              (sampleProps (Iso (mkDate 2024 5 1)) None None) eq_refl)
    as (Hwarn & _ & Hall).
  split; [exact Hwarn|].
  destruct (Hall (openMenu "2024-06-01")
              (sampleState (mkDate 2024 5 1) [] (HIdx 0))) as [_ Hstep].
  destruct (Hstep (InputBlur (Some "2024-06-01"%string)))
    as (_ & _ & _ & _ & Hnone & _).
  exact Hnone.
Defined.

(** C3.  An out-of-range date typed in does not clear the highlight: the
    branch sets the suggestion and the displayed date and leaves the index
    of an earlier keystroke, where the branches for unparseable text and
    for a selection reset it to [null].  With [maxValue] 2024-04-10, typing
    "2024-04-01" highlights index 0; typing "2024-04-15" then displays and
    suggests 2024-04-15 with index 0 still highlighted, and Enter commits
    2024-04-01.  The index kept can also lie outside the new grid: index
    30, kept when a February date is typed, is the index of no cell. *)
Theorem typed_out_of_range_keeps_stale_highlight :
  step "en" sampleToday parseIso
    (sampleProps Empty None (Some (mkDate 2024 4 10))) (openMenu "")
    (initialState sampleToday
       (sampleProps Empty None (Some (mkDate 2024 4 10))))
    (StateChange (typeChanges "2024-04-01" None))
  = (sampleState (mkDate 2024 4 1) [mkDate 2024 4 1] (HIdx 0), noEffects)
  /\ parseIso "2024-04-15" "en" = Iso (mkDate 2024 4 15)
  /\ getIsDateInRange (Iso (mkDate 2024 4 15)) None
       (Some (mkDate 2024 4 10)) = false
  /\ step "en" sampleToday parseIso
       (sampleProps Empty None (Some (mkDate 2024 4 10)))
       (openMenu "2024-04-01")
       (sampleState (mkDate 2024 4 1) [mkDate 2024 4 1] (HIdx 0))
       (StateChange (typeChanges "2024-04-15" None))
     = (sampleState (mkDate 2024 4 15) [mkDate 2024 4 15] (HIdx 0),
        noEffects)
  /\ sameHighlight (HIdx 0) HNull = false
  /\ map isHighlighted
       (days (render sampleToday
                (sampleProps Empty None (Some (mkDate 2024 4 10)))
                (openMenu "2024-04-15")
                (sampleState (mkDate 2024 4 15) [mkDate 2024 4 15]
                   (HIdx 0))))
     = true :: repeat false 29
  /\ keyDownEmits sampleToday
       (sampleProps Empty None (Some (mkDate 2024 4 10)))
       (openMenu "2024-04-15")
       (sampleState (mkDate 2024 4 15) [mkDate 2024 4 15] (HIdx 0)) "Enter"
     = [ {| target_id := Some "date"%string;
            target_name := Some "date"%string;
            target_value := Iso (mkDate 2024 4 1) |} ]
  /\ fst (step "en" sampleToday parseIso
            (sampleProps Empty None (Some (mkDate 2024 4 10)))
            (openMenu "2024-04-01")
            (sampleState (mkDate 2024 4 1) [mkDate 2024 4 1] (HIdx 0))
            (StateChange (typeChanges "next week" None)))
     = sampleState (mkDate 2024 4 1) [] HNull
  /\ step "en" sampleToday parseIso
       (sampleProps Empty (Some (mkDate 2024 3 1)) None)
       (openMenu "2024-03-31")
       (sampleState (mkDate 2024 3 31) [mkDate 2024 3 31] (HIdx 30))
       (StateChange (typeChanges "2024-02-15" None))
     = (sampleState (mkDate 2024 2 15) [mkDate 2024 2 15] (HIdx 30),
        noEffects)
  /\ itemAt (createCalendarItems (mkDate 2024 2 15)) (Number (HIdx 30))
     = None.
Proof. repeat apply conj; reflexivity. Qed.

Lemma blur_emits_witness :
  onChange (sampleProps (Iso (mkDate 2024 5 1)) None None) = true
  /\ emitted
       (snd (step "en" sampleToday parseIso
               (sampleProps (Iso (mkDate 2024 5 1)) None None)
               (openMenu "2024-06-01")
               (sampleState (mkDate 2024 5 1) [] (HIdx 0))
               (InputBlur (Some "2024-06-01"%string))))
     = [ {| target_id := Some "date"%string;
            target_name := Some "date"%string;
            target_value := Iso (mkDate 2024 6 1) |} ]
  /\ emitted
       (snd (step "en" sampleToday parseIso
               (sampleProps (Iso (mkDate 2024 5 1)) None None)
               (openMenu "")
               (sampleState (mkDate 2024 5 1) [] (HIdx 0))
               (InputBlur (Some ""%string))))
     = [ {| target_id := Some "date"%string;
            target_name := Some "date"%string;
            target_value := Empty |} ].
Proof.
  split; [reflexivity|]. split.
  - exact (proj1 (proj2 (blur_emits "en" sampleToday parseIso
                    (fun text => parseIso_blank text "en")
                    (sampleProps (Iso (mkDate 2024 5 1)) None None)
                    (openMenu "2024-06-01")
                    (sampleState (mkDate 2024 5 1) [] (HIdx 0))
                    (Some "2024-06-01"%string) eq_refl))).
  - exact (proj1 (proj2 (blur_emits "en" sampleToday parseIso
                    (fun text => parseIso_blank text "en")
                    (sampleProps (Iso (mkDate 2024 5 1)) None None)
                    (openMenu "")
                    (sampleState (mkDate 2024 5 1) [] (HIdx 0))
                    (Some ""%string) eq_refl))).
Defined.

(** C4 as stated fails on blank text that is not empty: two spaces are
    blank for the Enter handler, yet blur emits nothing for them. *)
Lemma blur_whitespace_emits_nothing :
  onChange (sampleProps (Iso (mkDate 2024 5 1)) None None) = true
  /\ isBlankInput (Some "  "%string) = true
  /\ emitted
       (snd (step "en" sampleToday parseIso
               (sampleProps (Iso (mkDate 2024 5 1)) None None)
               (openMenu "  ")
               (sampleState (mkDate 2024 5 1) [] HNull)
               (InputBlur (Some "  "%string))))
     = [].
Proof. repeat apply conj; reflexivity. Qed.

Lemma blank_text_clears_witness :
  isReadOnly (sampleProps (Iso (mkDate 2024 5 1)) None None) = false
  /\ onChange (sampleProps (Iso (mkDate 2024 5 1)) None None) = true
  /\ trim " " = ""%string
  /\ fst (step "en" sampleToday parseIso
            (sampleProps (Iso (mkDate 2024 5 1)) None None) (openMenu "")
            (sampleState (mkDate 2024 5 1) [mkDate 2024 5 1] (HIdx 0))
            (StateChange (typeChanges " " None)))
     = sampleState (mkDate 2024 5 1) [] HNull
  /\ keyDownEmits sampleToday
       (sampleProps (Iso (mkDate 2024 5 1)) None None) (openMenu " ")
       (sampleState (mkDate 2024 5 1) [] HNull) "Enter"
     = [ {| target_id := Some "date"%string;
            target_name := Some "date"%string;
            target_value := Empty |} ]
  /\ trim noBreakSpace = ""%string
  /\ keyDownEmits sampleToday
       (sampleProps (Iso (mkDate 2024 5 1)) None None)
       (openMenu noBreakSpace)
       (sampleState (mkDate 2024 5 1) [] HNull) "Enter"
     = [ {| target_id := Some "date"%string;
            target_name := Some "date"%string;
            target_value := Empty |} ].
Proof.
  split; [reflexivity|]. split; [reflexivity|]. split; [reflexivity|].
  pose proof (blank_text_clears "en" sampleToday parseIso
                (fun text => parseIso_blank text "en")
                (sampleProps (Iso (mkDate 2024 5 1)) None None)
                (openMenu "") (openMenu " ")
                (sampleState (mkDate 2024 5 1) [mkDate 2024 5 1] (HIdx 0))
                (typeChanges " " None) " "
                eq_refl eq_refl eq_refl eq_refl eq_refl eq_refl)
    as (Hstate & _ & Hemits).
  pose proof (blank_text_clears "en" sampleToday parseIso
                (fun text => parseIso_blank text "en")
                (sampleProps (Iso (mkDate 2024 5 1)) None None)
                (openMenu "") (openMenu noBreakSpace)
                (sampleState (mkDate 2024 5 1) [mkDate 2024 5 1] (HIdx 0))
                (typeChanges noBreakSpace None) noBreakSpace
                eq_refl eq_refl eq_refl eq_refl eq_refl eq_refl)
    as (_ & _ & Hnbsp).
  split; [exact Hstate|]. split; [exact Hemits|].
  split; [reflexivity|exact Hnbsp].
Defined.

(** C7 as stated fails when no date is selected: Enter on blank text clears
    a selection that is already empty, and Downshift reports no change, so
    [onChange] is not invoked. *)
Lemma enter_on_blank_without_selection_emits_nothing :
  isReadOnly (sampleProps Empty None None) = false
  /\ onChange (sampleProps Empty None None) = true
  /\ isBlankInput (inputValue (openMenu " ")) = true
  /\ fst (step "en" sampleToday parseIso (sampleProps Empty None None)
            (openMenu "")
            (initialState sampleToday (sampleProps Empty None None))
            (StateChange (typeChanges " " None)))
     = sampleState sampleToday [] HNull
  /\ clearSelectionCalled
       (snd (step "en" sampleToday parseIso (sampleProps Empty None None)
               (openMenu " ") (sampleState sampleToday [] HNull)
               (KeyDown "Enter")))
     = true
  /\ keyDownEmits sampleToday (sampleProps Empty None None) (openMenu " ")
       (sampleState sampleToday [] HNull) "Enter"
     = [].
Proof. repeat apply conj; reflexivity. Qed.

(** C5.  The "today" button after a date was typed: one suggestion is
    held, and the button highlights index 10 of June 2024, the cell of
    2024-06-11, although today is 2024-06-10 and its cell has index 9.  The
    displayed month and the focus are as claimed. *)
Theorem today_button_counts_suggestions :
  fst (step "en" sampleToday parseIso (sampleProps Empty None None)
         (openMenu "")
         (initialState sampleToday (sampleProps Empty None None))
         (StateChange (typeChanges "2024-03-15" None)))
  = sampleState (mkDate 2024 3 15) [mkDate 2024 3 15] (HIdx 14)
  /\ step "en" sampleToday parseIso (sampleProps Empty None None)
       (openMenu "2024-03-15")
       (sampleState (mkDate 2024 3 15) [mkDate 2024 3 15] (HIdx 14))
       TodayClick
     = (sampleState (mkDate 2024 6 10) [mkDate 2024 3 15] (HIdx 10),
        focusInput noEffects)
  /\ getDateInMonth sampleToday - 1 = 9
  /\ itemAt (createCalendarItems (mkDate 2024 6 10)) (Number (HIdx 10))
     = Some (mkDate 2024 6 11)
  /\ map isHighlighted
       (days (render sampleToday (sampleProps Empty None None)
                (openMenu "2024-03-15")
                (sampleState (mkDate 2024 6 10) [mkDate 2024 3 15]
                   (HIdx 10))))
     = map (fun it => CalendarDate_eqb it (mkDate 2024 6 11))
         (createCalendarItems (mkDate 2024 6 10)).
Proof. repeat apply conj; reflexivity. Qed.

(** ** More of the component on concrete inputs *)

Lemma grid_shape_witness :
  isDisabled sampleReadOnly || isReadOnly sampleReadOnly = true
  /\ menuIsShown sampleReadOnly (openMenu "") = false
  /\ days (render sampleToday sampleReadOnly (openMenu "") midMarch) = []
  /\ Z.of_nat
       (List.length (days (render sampleToday propsOpen (openMenu "")
                             midMarch)))
     = 31.
Proof.
  split; [reflexivity|]. split; [|split].
  - exact (proj2 (proj2 (grid_shape sampleToday sampleReadOnly (openMenu "")
                           midMarch)) eq_refl).
  - reflexivity.
  - exact (proj1 (proj2 (grid_shape sampleToday propsOpen (openMenu "")
                           midMarch))).
Defined.

Lemma grid_cell_witness :
  itemAt (days (render sampleToday propsUntilMid (openMenu "") midMarch))
    (Some 15)
  = Some (renderDay sampleToday propsUntilMid midMarch
            (15%nat, mkDate 2024 3 16))
  /\ item (renderDay sampleToday propsUntilMid midMarch
             (15%nat, mkDate 2024 3 16)) = mkDate 2024 3 16
  /\ disabled (renderDay sampleToday propsUntilMid midMarch
                 (15%nat, mkDate 2024 3 16)) = true
  /\ isHighlighted (renderDay sampleToday propsUntilMid midMarch
                      (15%nat, mkDate 2024 3 16)) = false.
Proof.
  split; [reflexivity|].
  destruct (grid_cell sampleToday propsUntilMid (openMenu "") midMarch 15
              (renderDay sampleToday propsUntilMid midMarch
                 (15%nat, mkDate 2024 3 16)) eq_refl)
    as (_ & Hitem & _ & Hdisabled & _).
  split; [exact Hitem|]. split; [exact Hdisabled|reflexivity].
Defined.

Lemma blur_commits_witness :
  "2024-06-01"%string <> ""%string
  /\ (List.length
        (emitted
           (snd (step "en" sampleToday parseIso propsMay
                   (openMenu "2024-06-01") midMarch
                   (InputBlur (Some "2024-06-01"%string))))) <= 1)%nat.
Proof.
  split; [discriminate|].
  apply (proj2 (proj2 (blur_commits "en" sampleToday parseIso propsMay
                         (openMenu "2024-06-01") midMarch
                         (Some "2024-06-01"%string)))).
  right. discriminate.
Defined.

Lemma typed_date_then_enter_witness :
  isReadOnly propsMay = false
  /\ isDisabled propsMay = false
  /\ onChange propsMay = true
  /\ parseIso "2024-03-15" "en" = Iso (mkDate 2024 3 15)
  /\ isValidDate (mkDate 2024 3 15) = true
  /\ getIsDateInRange (Iso (mkDate 2024 3 15)) (minValue propsMay)
       (maxValue propsMay) = true
  /\ fst (step "en" sampleToday parseIso propsMay (openMenu "")
            (initialState sampleToday propsMay)
            (StateChange (typeChanges "2024-03-15" (Some HNull))))
     = sampleState (mkDate 2024 3 15) [mkDate 2024 3 15] (HIdx 14)
  /\ keyDownEmits sampleToday propsMay (openMenu "2024-03-15")
       (sampleState (mkDate 2024 3 15) [mkDate 2024 3 15] (HIdx 14)) "Enter"
     = [ {| target_id := Some "date"%string;
            target_name := Some "date"%string;
            target_value := Iso (mkDate 2024 3 15) |} ].
Proof.
  do 6 (split; [reflexivity|]).
  pose proof (typed_date_then_enter "en" sampleToday parseIso
                (fun text => parseIso_blank text "en")
                propsMay (openMenu "") (openMenu "2024-03-15")
                (initialState sampleToday propsMay)
                (typeChanges "2024-03-15" (Some HNull)) "2024-03-15"
                (mkDate 2024 3 15)
                eq_refl eq_refl eq_refl eq_refl eq_refl eq_refl eq_refl
                eq_refl eq_refl eq_refl) as (Hstate & _ & Hemits).
  split; [exact Hstate|exact Hemits].
Defined.

Lemma typed_garbage_then_enter_witness :
  isReadOnly propsMay = false
  /\ parseIso "next week" "en" = Empty
  /\ trim "next week" <> ""%string
  /\ fst (step "en" sampleToday parseIso propsMay (openMenu "") midMarch
            (StateChange (typeChanges "next week" None)))
     = sampleState (mkDate 2024 3 15) [] HNull
  /\ keyDownEmits sampleToday propsMay (openMenu "next week")
       (sampleState (mkDate 2024 3 15) [] HNull) "Enter" = [].
Proof.
  split; [reflexivity|]. split; [reflexivity|]. split; [discriminate|].
  pose proof (typed_garbage_then_enter "en" sampleToday parseIso propsMay
                (openMenu "") (openMenu "next week") midMarch
                (typeChanges "next week" None) "next week"
                eq_refl eq_refl eq_refl eq_refl
                ltac:(discriminate) eq_refl) as (Hstate & _ & Hemits).
  split; [exact Hstate|exact Hemits].
Defined.

Lemma arrow_inside_month_witness :
  isReadOnly propsUntilMid = false
  /\ highlightedIndex midMarch = HIdx 14
  /\ step "en" sampleToday parseIso propsUntilMid (openMenu "") midMarch
       (KeyDown "ArrowDown")
     = (midMarch,
        {| emitted := [];
           preventedDownshiftDefault := true;
           clearSelectionCalled := false;
           inputFocused := false |})
  /\ step "en" sampleToday parseIso propsUntilMid (openMenu "") midMarch
       (KeyDown "ArrowUp")
     = (midMarch,
        {| emitted := [];
           preventedDownshiftDefault := false;
           clearSelectionCalled := false;
           inputFocused := false |}).
Proof.
  split; [reflexivity|]. split; [reflexivity|].
  destruct (arrow_inside_month "en" sampleToday parseIso propsUntilMid
              (openMenu "") midMarch 14
              (renderDay sampleToday propsUntilMid midMarch
                 (14%nat, mkDate 2024 3 15))
              eq_refl eq_refl eq_refl) as [Hdown Hup].
  split.
  - exact (Hdown (renderDay sampleToday propsUntilMid midMarch
                    (15%nat, mkDate 2024 3 16)) eq_refl).
  - exact (Hup (renderDay sampleToday propsUntilMid midMarch
                  (13%nat, mkDate 2024 3 14)) eq_refl).
Defined.

Lemma displayed_date_stays_real_witness :
  isValidDate sampleToday = true
  /\ calendarDate
       (run "en" sampleToday parseIso propsMay
          (initialState sampleToday propsMay)
          [(openMenu "", StateChange (typeChanges "2024-02-29" None));
           (openMenu "2024-02-29", PrevYearClick)])
     = mkDate 2023 2 28
  /\ isValidDate
       (calendarDate
          (run "en" sampleToday parseIso propsMay
             (initialState sampleToday propsMay)
             [(openMenu "", StateChange (typeChanges "2024-02-29" None));
              (openMenu "2024-02-29", PrevYearClick)]))
     = true.
Proof.
  split; [reflexivity|]. split; [reflexivity|].
  refine (proj1 (displayed_date_stays_real "en" sampleToday parseIso propsMay
                   [(openMenu "", StateChange (typeChanges "2024-02-29" None));
                    (openMenu "2024-02-29", PrevYearClick)]
                   eq_refl _ (fun text d => parseIso_valid text "en" d))).
  intros d Hd. injection Hd as <-. reflexivity.
Defined.

Lemma header_buttons_compose_witness :
  isValidDate (calendarDate midMarch) = true
  /\ day (calendarDate midMarch) <= 28
  /\ run "en" sampleToday parseIso propsOpen midMarch
       [(openMenu "", PrevMonthClick); (openMenu "", NextMonthClick)]
     = sampleState (mkDate 2024 3 15) [] (HIdx 0)
  /\ run "en" sampleToday parseIso propsOpen midMarch
       (repeat (openMenu "", NextMonthClick) 12)
     = sampleState (mkDate 2025 3 15) [] (HIdx 0).
Proof.
  split; [reflexivity|]. split; [discriminate|].
  destruct (header_buttons_compose "en" sampleToday parseIso propsOpen
              (openMenu "") midMarch eq_refl ltac:(discriminate))
    as (Hback & _ & _ & _ & Htwelve & _).
  split; [exact Hback|exact Htwelve].
Defined.

Lemma today_button_highlights_today_witness :
  suggestedItems endJanuary = []
  /\ isValidDate sampleToday = true
  /\ fst (step "en" sampleToday parseIso propsOpen (openMenu "") endJanuary
            TodayClick)
     = sampleState (mkDate 2024 6 10) [] (HIdx 9)
  /\ itemAt (createCalendarItems (mkDate 2024 6 10)) (Number (HIdx 9))
     = Some sampleToday.
Proof.
  split; [reflexivity|]. split; [reflexivity|]. split; [reflexivity|].
  exact (proj1 (proj2 (proj2
           (today_button_highlights_today "en" sampleToday parseIso propsOpen
              (openMenu "") endJanuary eq_refl eq_refl)))).
Defined.

Lemma arrow_down_then_up_witness :
  isReadOnly propsOpen = false
  /\ isValidDate (calendarDate endJanuary) = true
  /\ day (calendarDate endJanuary) <= 28
  /\ highlightedIndex endJanuary
     = HIdx (getDaysInMonth (calendarDate endJanuary) - 1)
  /\ fst (step "en" sampleToday parseIso propsOpen (openMenu "") endJanuary
            (KeyDown "ArrowDown"))
     = sampleState (mkDate 2024 2 15) [] (HIdx 0)
  /\ run "en" sampleToday parseIso propsOpen endJanuary
       [(openMenu "", KeyDown "ArrowDown"); (openMenu "", KeyDown "ArrowUp")]
     = endJanuary.
Proof.
  split; [reflexivity|]. split; [reflexivity|]. split; [discriminate|].
  split; [reflexivity|]. split; [reflexivity|].
  exact (arrow_down_then_up "en" sampleToday parseIso propsOpen
           (openMenu "") (openMenu "") endJanuary
           eq_refl eq_refl ltac:(discriminate) eq_refl eq_refl eq_refl).
Defined.

Lemma mounting_witness :
  suggestedItems (initialState sampleToday propsMay) = []
  /\ calendarDate (initialState sampleToday propsMay) = mkDate 2024 5 1
  /\ Forall (fun cell =>
               isHighlighted cell = isSelected cell
               /\ (isSelected cell = true
                   -> value propsMay = Iso (item cell)))
       (days (render sampleToday propsMay (openMenu "")
                (initialState sampleToday propsMay))).
Proof. exact (mounting sampleToday propsMay (openMenu "")). Defined.

End DateInput.
